(** * cam-controller: calibration and control-mapping engine

    A shallow embedding of [my-controller/test_mediapipe.py]: the vJoy axis
    mapping, the pose buffer and baseline averaging, the calibration state
    machine, the per-hand gesture debounce, the vertical-travel and brake
    computations, and the control loop with its device writes.

    Numbers.  Python floats are idealised as exact rationals ([Q]); the
    concrete evaluations below use values on which float arithmetic is
    exact as well.  [math.atan2], [math.pi] and [np.rad2deg] are library
    functions: the engine takes them from a [MathLib] record. *)

From Stdlib Require Import QArith Qround ZArith List Lia Lqa Bool.
From stdpp Require Import gmap strings.
Import ListNotations.

(** ** Python numerics on rationals *)

(** [int(x)] on a float truncates toward zero. *)
Definition py_int (x : Q) : Z := Z.quot (Qnum x) (Z.pos (Qden x)).

(** [max(a, b)] returns [a] unless [b > a]. *)
Definition py_max (a b : Q) : Q := if Qle_bool b a then a else b.

(** [min(a, b)] returns [a] unless [b < a]. *)
Definition py_min (a b : Q) : Q := if Qle_bool a b then a else b.

(** [np.clip(x, lo, hi)] is [minimum(maximum(x, lo), hi)]. *)
Definition np_clip (x lo hi : Q) : Q := py_min (py_max x lo) hi.

(** ** The vJoy axis mapping (lines 23-29) *)

Definition VJOY_MAX_RANGE : Z := 32768.
Definition VJOY_CENTER : Z := (VJOY_MAX_RANGE / 2)%Z.

Definition map_to_vjoy_axis (value_minus_1_to_1 : Q) : Z :=
  let vjoy_value :=
    py_int (inject_Z VJOY_CENTER
            + value_minus_1_to_1 * inject_Z (VJOY_CENTER - 1)%Z)%Q in
  Z.max 1 (Z.min VJOY_MAX_RANGE vjoy_value).



(** ** Perception results

    A pose result is kept as the first detected pose: its world landmarks
    ([pose_world_landmarks[0]]) and its image landmarks
    ([pose_landmarks[0]]), each indexed by the MediaPipe landmark number
    (0 nose, 11/12 shoulders, 15/16 wrists, 23/24 hips).  A tick whose
    [latest_pose_result] is [None] or has no world landmarks carries no
    pose ([None] below). *)

Record Landmark : Type := { lm_x : Q; lm_y : Q; lm_z : Q }.

Definition Landmarks : Type := nat -> Landmark.

Record PoseResult : Type :=
  { pose_world_landmarks : Landmarks;
    pose_landmarks : Landmarks }.

(** A gesture result: per detected hand the top category name of
    [gestures[i][0]] and of [handedness[i][0]] (the recogniser returns the
    two lists with the same length). *)
Record GestureResult : Type :=
  { gestures : list string;
    handedness : list string }.

(** The float library the source calls. *)
Record MathLib : Type :=
  { atan2 : Q -> Q -> Q;
    pi : Q;
    rad2deg : Q -> Q }.

(** ** Engine state (module-level variables, lines 31-60) *)

Inductive HandState : Type := TRACKING | RELEASED.

Definition GESTURE_STREAK_REQUIRED : nat := 3.

Inductive CalibrationStatus : Type :=
  NOT_CALIBRATED | ARMING | READY_TO_SET | CALIBRATED.

(** The dictionary built by [average_initial_state]. *)
Record Baseline : Type :=
  { left_hand_pos : Landmark;
    right_hand_pos : Landmark;
    head_pos_3d : Landmark;
    left_hand_pos_2d : Q * Q;
    right_hand_pos_2d : Q * Q;
    head_pos_2d : Q * Q;
    torso_angle : Q;
    left_hand_head_y_offset : Q;
    right_hand_head_y_offset : Q }.

(** [initial_state] is [{}] at start and may be assigned [None]; both are
    falsy and hold no key, and both are [None] here. *)
Record State : Type :=
  { left_hand_status : HandState;
    right_hand_status : HandState;
    left_gesture_streak : nat;
    right_gesture_streak : nat;
    left_last_seen_gesture : option string;
    right_last_seen_gesture : option string;
    calibration_status : CalibrationStatus;
    arming_start_time : option Q;
    pose_data_buffer : list PoseResult;
    is_calibrated : bool;
    initial_state : option Baseline }.

Definition fresh_state : State :=
  {| left_hand_status := TRACKING;
     right_hand_status := TRACKING;
     left_gesture_streak := 0;
     right_gesture_streak := 0;
     left_last_seen_gesture := None;
     right_last_seen_gesture := None;
     calibration_status := NOT_CALIBRATED;
     arming_start_time := None;
     pose_data_buffer := [];
     is_calibrated := false;
     initial_state := None |}.

(** ** The output device

    The vJoy device holds the last value written to each axis and its
    buttons; [writes] records the [set_axis] calls in order. *)

Inductive HID_USAGE : Type :=
  HID_USAGE_X | HID_USAGE_Y | HID_USAGE_Z | HID_USAGE_RX.

Record VJoyDevice : Type :=
  { axis_x : Z;
    axis_y : Z;
    axis_z : Z;
    axis_rx : Z;
    buttons : list bool;
    writes : list (HID_USAGE * Z) }.

Definition set_axis (d : VJoyDevice) (axis : HID_USAGE) (value : Z)
  : VJoyDevice :=
  let log := writes d ++ [(axis, value)] in
  match axis with
  | HID_USAGE_X =>
      {| axis_x := value; axis_y := axis_y d; axis_z := axis_z d;
         axis_rx := axis_rx d; buttons := buttons d; writes := log |}
  | HID_USAGE_Y =>
      {| axis_x := axis_x d; axis_y := value; axis_z := axis_z d;
         axis_rx := axis_rx d; buttons := buttons d; writes := log |}
  | HID_USAGE_Z =>
      {| axis_x := axis_x d; axis_y := axis_y d; axis_z := value;
         axis_rx := axis_rx d; buttons := buttons d; writes := log |}
  | HID_USAGE_RX =>
      {| axis_x := axis_x d; axis_y := axis_y d; axis_z := axis_z d;
         axis_rx := value; buttons := buttons d; writes := log |}
  end.

Definition axis_value (d : VJoyDevice) (axis : HID_USAGE) : Z :=
  match axis with
  | HID_USAGE_X => axis_x d
  | HID_USAGE_Y => axis_y d
  | HID_USAGE_Z => axis_z d
  | HID_USAGE_RX => axis_rx d
  end.

(** ** Pose buffer: [collections.deque(maxlen=5)] *)

Definition BUFFER_MAXLEN : nat := 5.

(** [append] on a full deque drops the oldest element. *)
Definition deque_append (buffer : list PoseResult) (res : PoseResult)
  : list PoseResult :=
  if (BUFFER_MAXLEN <=? length buffer)%nat
  then tl buffer ++ [res]
  else buffer ++ [res].

(** ** Gesture dictionary (lines 150-161) *)

Definition get_hand_gestures (gestures handedness : option (list string))
  : gmap string string :=
  match gestures, handedness with
  | Some gs, Some hs =>
      fold_left
        (fun hand_gestures hg => <[fst hg := snd hg]> hand_gestures)
        (combine hs gs) ∅
  | _, _ => ∅
  end.

Definition Open_Palm : string := "Open_Palm".
Definition Closed_Fist : string := "Closed_Fist".

(** [current_gestures.get('Left') == g and current_gestures.get('Right') == g] *)
Definition both_hands (current_gestures : gmap string string) (g : string)
  : bool :=
  bool_decide (current_gestures !! "Left" = Some g)
  && bool_decide (current_gestures !! "Right" = Some g).

Section Engine.

Variable M : MathLib.

Local Open Scope Q_scope.

(** ** Torso angle (lines 73-101) *)

Definition calculate_torso_angle (landmarks : Landmarks) : Q :=
  let left_shoulder := landmarks 11%nat in
  let right_shoulder := landmarks 12%nat in
  let left_hip := landmarks 23%nat in
  let right_hip := landmarks 24%nat in
  let shoulder_midpoint_x := (lm_x left_shoulder + lm_x right_shoulder) / 2 in
  let shoulder_midpoint_y := (lm_y left_shoulder + lm_y right_shoulder) / 2 in
  let hip_midpoint_x := (lm_x left_hip + lm_x right_hip) / 2 in
  let hip_midpoint_y := (lm_y left_hip + lm_y right_hip) / 2 in
  let dx := shoulder_midpoint_x - hip_midpoint_x in
  let dy := shoulder_midpoint_y - hip_midpoint_y in
  let angle_rad := atan2 M dy dx + pi M / 2 in
  if negb (Qle_bool angle_rad (pi M))
  then angle_rad - 2 * pi M
  else angle_rad.

(** ** Baseline averaging (lines 103-148) *)

Definition buffer_sum (f : PoseResult -> Q) (buffer : list PoseResult) : Q :=
  fold_left (fun acc res => acc + f res) buffer 0.

Definition average_initial_state (buffer : list PoseResult)
  : option Baseline :=
  match buffer with
  | [] => None
  | _ :: _ =>
      let num_samples := inject_Z (Z.of_nat (length buffer)) in
      let avg3 (i : nat) (c : Landmark -> Q) :=
        buffer_sum (fun res => c (pose_world_landmarks res i)) buffer
        / num_samples in
      let avg2 (i : nat) (c : Landmark -> Q) :=
        buffer_sum (fun res => c (pose_landmarks res i)) buffer
        / num_samples in
      let torso_angles :=
        buffer_sum
          (fun res => calculate_torso_angle (pose_world_landmarks res))
          buffer in
      let l_hand :=
        {| lm_x := avg3 15%nat lm_x; lm_y := avg3 15%nat lm_y;
           lm_z := avg3 15%nat lm_z |} in
      let r_hand :=
        {| lm_x := avg3 16%nat lm_x; lm_y := avg3 16%nat lm_y;
           lm_z := avg3 16%nat lm_z |} in
      let head :=
        {| lm_x := avg3 0%nat lm_x; lm_y := avg3 0%nat lm_y;
           lm_z := avg3 0%nat lm_z |} in
      Some
        {| left_hand_pos := l_hand;
           right_hand_pos := r_hand;
           head_pos_3d := head;
           left_hand_pos_2d := (avg2 15%nat lm_x, avg2 15%nat lm_y);
           right_hand_pos_2d := (avg2 16%nat lm_x, avg2 16%nat lm_y);
           head_pos_2d := (avg2 0%nat lm_x, avg2 0%nat lm_y);
           torso_angle := torso_angles / num_samples;
           left_hand_head_y_offset := lm_y l_hand - lm_y head;
           right_hand_head_y_offset := lm_y r_hand - lm_y head |}
  end.

(** ** Calibration state machine (lines 255-283)

    [now] is what [time.time()] returns on this tick; at most one branch
    reads it. *)

Definition set_calibration (s : State) (st : CalibrationStatus)
  (start : option Q) : State :=
  {| left_hand_status := left_hand_status s;
     right_hand_status := right_hand_status s;
     left_gesture_streak := left_gesture_streak s;
     right_gesture_streak := right_gesture_streak s;
     left_last_seen_gesture := left_last_seen_gesture s;
     right_last_seen_gesture := right_last_seen_gesture s;
     calibration_status := st;
     arming_start_time := start;
     pose_data_buffer := pose_data_buffer s;
     is_calibrated := is_calibrated s;
     initial_state := initial_state s |}.

(** [arming_start_time or 0] *)
Definition or_0 (t : option Q) : Q :=
  match t with
  | Some v => if Qeq_bool v 0 then 0 else v
  | None => 0
  end.

Definition calibration_step (now : Q) (current_gestures : gmap string string)
  (s : State) : State :=
  match calibration_status s with
  | NOT_CALIBRATED =>
      if both_hands current_gestures Open_Palm
      then set_calibration s ARMING (Some now)
      else s
  | ARMING =>
      if negb (both_hands current_gestures Open_Palm)
      then set_calibration s
             (if is_calibrated s then CALIBRATED else NOT_CALIBRATED) None
      else if Qle_bool (1 # 2) (now - or_0 (arming_start_time s))
      then set_calibration s READY_TO_SET (arming_start_time s)
      else s
  | READY_TO_SET =>
      if both_hands current_gestures Closed_Fist
      then
        match average_initial_state (pose_data_buffer s) with
        | Some avg =>
            {| left_hand_status := TRACKING;
               right_hand_status := TRACKING;
               left_gesture_streak := left_gesture_streak s;
               right_gesture_streak := right_gesture_streak s;
               left_last_seen_gesture := left_last_seen_gesture s;
               right_last_seen_gesture := right_last_seen_gesture s;
               calibration_status := CALIBRATED;
               arming_start_time := arming_start_time s;
               pose_data_buffer := pose_data_buffer s;
               is_calibrated := true;
               initial_state := Some avg |}
        | None =>
            {| left_hand_status := left_hand_status s;
               right_hand_status := right_hand_status s;
               left_gesture_streak := left_gesture_streak s;
               right_gesture_streak := right_gesture_streak s;
               left_last_seen_gesture := left_last_seen_gesture s;
               right_last_seen_gesture := right_last_seen_gesture s;
               calibration_status := NOT_CALIBRATED;
               arming_start_time := arming_start_time s;
               pose_data_buffer := pose_data_buffer s;
               is_calibrated := is_calibrated s;
               initial_state := None |}
        end
      else s
  | CALIBRATED =>
      if both_hands current_gestures Open_Palm
      then set_calibration s ARMING (Some now)
      else s
  end.

(** ** Per-hand debounce (lines 294-326)

    Lines 294-309 and 311-326 are the same code on the left and on the right
    hand's variables; [HandTrack] gathers one hand's variables: its status,
    streak, last seen gesture and its entry [..._hand_head_y_offset] of
    [initial_state]. *)

Record HandTrack : Type :=
  { hand_status : HandState;
    gesture_streak : nat;
    last_seen_gesture : option string;
    hand_head_y_offset : Q }.

(** The streak update: [current_gesture] is [current_gestures.get(hand)],
    [None] when the dictionary has no entry for the hand. *)
Definition observe (current_gesture : option string) (h : HandTrack)
  : HandTrack :=
  if bool_decide (current_gesture = last_seen_gesture h)
  then {| hand_status := hand_status h;
          gesture_streak := gesture_streak h + 1;
          last_seen_gesture := last_seen_gesture h;
          hand_head_y_offset := hand_head_y_offset h |}
  else {| hand_status := hand_status h;
          gesture_streak := 1;
          last_seen_gesture := current_gesture;
          hand_head_y_offset := hand_head_y_offset h |}.

(** The threshold check; [fresh_y_offset] is
    [landmarks_3d[hand].y - current_head_pos_3d.y]. *)
Definition confirm (fresh_y_offset : Q) (h : HandTrack) : HandTrack :=
  if (GESTURE_STREAK_REQUIRED <=? gesture_streak h)%nat
  then
    match hand_status h with
    | TRACKING =>
        if bool_decide (last_seen_gesture h = Some Open_Palm)
        then {| hand_status := RELEASED;
                gesture_streak := 0;
                last_seen_gesture := last_seen_gesture h;
                hand_head_y_offset := hand_head_y_offset h |}
        else h
    | RELEASED =>
        if bool_decide (last_seen_gesture h = Some Closed_Fist)
        then {| hand_status := TRACKING;
                gesture_streak := 0;
                last_seen_gesture := last_seen_gesture h;
                hand_head_y_offset := fresh_y_offset |}
        else h
    end
  else h.

Definition debounce (current_gesture : option string) (fresh_y_offset : Q)
  (h : HandTrack) : HandTrack :=
  confirm fresh_y_offset (observe current_gesture h).

Definition left_track (s : State) (b : Baseline) : HandTrack :=
  {| hand_status := left_hand_status s;
     gesture_streak := left_gesture_streak s;
     last_seen_gesture := left_last_seen_gesture s;
     hand_head_y_offset := left_hand_head_y_offset b |}.

Definition right_track (s : State) (b : Baseline) : HandTrack :=
  {| hand_status := right_hand_status s;
     gesture_streak := right_gesture_streak s;
     last_seen_gesture := right_last_seen_gesture s;
     hand_head_y_offset := right_hand_head_y_offset b |}.

Definition with_offsets (b : Baseline) (l r : Q) : Baseline :=
  {| left_hand_pos := left_hand_pos b;
     right_hand_pos := right_hand_pos b;
     head_pos_3d := head_pos_3d b;
     left_hand_pos_2d := left_hand_pos_2d b;
     right_hand_pos_2d := right_hand_pos_2d b;
     head_pos_2d := head_pos_2d b;
     torso_angle := torso_angle b;
     left_hand_head_y_offset := l;
     right_hand_head_y_offset := r |}.

(** Both hands' debounce on a calibrated tick: the new state, whose
    [initial_state] is the baseline with the offsets written back, and that
    baseline. *)
Definition debounce_hands (current_gestures : gmap string string)
  (landmarks_3d : Landmarks) (s : State) (b : Baseline) : State * Baseline :=
  let current_head_pos_3d := landmarks_3d 0%nat in
  let l :=
    debounce (current_gestures !! "Left")
      (lm_y (landmarks_3d 15%nat) - lm_y current_head_pos_3d)
      (left_track s b) in
  let r :=
    debounce (current_gestures !! "Right")
      (lm_y (landmarks_3d 16%nat) - lm_y current_head_pos_3d)
      (right_track s b) in
  let b' := with_offsets b (hand_head_y_offset l) (hand_head_y_offset r) in
  ({| left_hand_status := hand_status l;
      right_hand_status := hand_status r;
      left_gesture_streak := gesture_streak l;
      right_gesture_streak := gesture_streak r;
      left_last_seen_gesture := last_seen_gesture l;
      right_last_seen_gesture := last_seen_gesture r;
      calibration_status := calibration_status s;
      arming_start_time := arming_start_time s;
      pose_data_buffer := pose_data_buffer s;
      is_calibrated := is_calibrated s;
      initial_state := Some b' |}, b').

(** ** Tracking and vJoy update (lines 346-392) *)

Definition MAX_TRAVEL_METERS : Q := 4 # 10.
Definition MAX_LEAN_DEGREES : Q := 25.

Definition vertical_travel (status : HandState)
  (hand_y head_y reference_y_offset : Q) : Q :=
  match status with
  | TRACKING =>
      let current_y_offset := hand_y - head_y in
      - (current_y_offset - reference_y_offset)
  | RELEASED => 0
  end.

Definition left_vertical_travel (s : State) (b : Baseline)
  (landmarks_3d : Landmarks) : Q :=
  vertical_travel (left_hand_status s) (lm_y (landmarks_3d 15%nat))
    (lm_y (landmarks_3d 0%nat)) (left_hand_head_y_offset b).

Definition right_vertical_travel (s : State) (b : Baseline)
  (landmarks_3d : Landmarks) : Q :=
  vertical_travel (right_hand_status s) (lm_y (landmarks_3d 16%nat))
    (lm_y (landmarks_3d 0%nat)) (right_hand_head_y_offset b).

(** [left_pull = max(0, -left_vertical_travel)] *)
Definition pull (travel : Q) : Q := py_max 0 (- travel).

Definition left_pull (s : State) (b : Baseline) (landmarks_3d : Landmarks)
  : Q := pull (left_vertical_travel s b landmarks_3d).

Definition right_pull (s : State) (b : Baseline) (landmarks_3d : Landmarks)
  : Q := pull (right_vertical_travel s b landmarks_3d).

Definition norm_brake_0_to_1 (p : Q) : Q :=
  np_clip (p / MAX_TRAVEL_METERS) 0 1.

Definition norm_left_brake (travel : Q) : Q :=
  norm_brake_0_to_1 (pull travel) * 2 - 1.

Definition norm_right_brake (travel : Q) : Q :=
  - (norm_brake_0_to_1 (pull travel) * 2 - 1).

Definition rel_incline_deg (b : Baseline) (landmarks_3d : Landmarks) : Q :=
  let current_torso_angle := calculate_torso_angle landmarks_3d in
  let rel_incline_rad := current_torso_angle - torso_angle b in
  rad2deg M rel_incline_rad.

Definition norm_lean (b : Baseline) (landmarks_3d : Landmarks) : Q :=
  np_clip (rel_incline_deg b landmarks_3d / MAX_LEAN_DEGREES) (-1) 1.

Definition vjoy_update (d : VJoyDevice) (s : State) (b : Baseline)
  (landmarks_3d : Landmarks) : VJoyDevice :=
  let vjoy_x :=
    map_to_vjoy_axis (norm_left_brake (left_vertical_travel s b landmarks_3d)) in
  let vjoy_y :=
    map_to_vjoy_axis
      (norm_right_brake (right_vertical_travel s b landmarks_3d)) in
  let vjoy_rx := map_to_vjoy_axis (norm_lean b landmarks_3d) in
  let d := set_axis d HID_USAGE_X vjoy_x in
  let d := set_axis d HID_USAGE_Y vjoy_y in
  let d := set_axis d HID_USAGE_RX vjoy_rx in
  set_axis d HID_USAGE_Z VJOY_CENTER.

(** ** One pass of the control loop (lines 244-392) *)

Record TickInput : Type :=
  { now : Q;
    latest_pose_result : option PoseResult;
    latest_gesture_result : option GestureResult }.

Record World : Type :=
  { engine : State;
    vjoy_device : VJoyDevice }.

Definition buffer_pose (s : State) (res : PoseResult) : State :=
  {| left_hand_status := left_hand_status s;
     right_hand_status := right_hand_status s;
     left_gesture_streak := left_gesture_streak s;
     right_gesture_streak := right_gesture_streak s;
     left_last_seen_gesture := left_last_seen_gesture s;
     right_last_seen_gesture := right_last_seen_gesture s;
     calibration_status := calibration_status s;
     arming_start_time := arming_start_time s;
     pose_data_buffer := deque_append (pose_data_buffer s) res;
     is_calibrated := is_calibrated s;
     initial_state := initial_state s |}.

Definition current_gestures_of (t : TickInput) : gmap string string :=
  get_hand_gestures
    (option_map gestures (latest_gesture_result t))
    (option_map handedness (latest_gesture_result t)).

(** [None] is an uncaught exception: subscripting an [initial_state] that
    holds no baseline. *)
Definition tick (w : World) (t : TickInput) : option World :=
  match latest_pose_result t with
  | None => Some w
  | Some res =>
      let s := buffer_pose (engine w) res in
      let current_gestures := current_gestures_of t in
      let s := calibration_step (now t) current_gestures s in
      if is_calibrated s
      then
        match initial_state s with
        | None => None
        | Some b =>
            let landmarks_3d := pose_world_landmarks res in
            let (s, b) := debounce_hands current_gestures landmarks_3d s b in
            Some {| engine := s;
                    vjoy_device :=
                      vjoy_update (vjoy_device w) s b landmarks_3d |}
        end
      else Some {| engine := s; vjoy_device := vjoy_device w |}
  end.

(** The loop over the frames read until the quit key or the end of the
    video, and the reset that follows it (lines 462-466). *)
Fixpoint run (w : World) (ticks : list TickInput) : option World :=
  match ticks with
  | [] => Some w
  | t :: rest =>
      match tick w t with
      | Some w' => run w' rest
      | None => None
      end
  end.

Definition shutdown (d : VJoyDevice) : VJoyDevice :=
  let d := set_axis d HID_USAGE_X VJOY_CENTER in
  let d := set_axis d HID_USAGE_Y VJOY_CENTER in
  let d := set_axis d HID_USAGE_Z VJOY_CENTER in
  set_axis d HID_USAGE_RX VJOY_CENTER.

Definition start (d : VJoyDevice) : World :=
  {| engine := fresh_state; vjoy_device := d |}.

Definition main (d : VJoyDevice) (ticks : list TickInput)
  : option VJoyDevice :=
  match run (start d) ticks with
  | Some w => Some (shutdown (vjoy_device w))
  | None => None
  end.

(** The [set_axis] calls of one tick: what it appends to the log. *)
Definition tick_writes (w : World) (t : TickInput)
  : option (list (HID_USAGE * Z)) :=
  match tick w t with
  | Some w' =>
      Some (skipn (length (writes (vjoy_device w)))
                  (writes (vjoy_device w')))
  | None => None
  end.

End Engine.

(** ** One hand's history

    What happens to one hand's variables over the run: the debounce of an
    observed label (a calibrated tick with a pose), or the reset to
    [TRACKING] with a new baseline at (re)calibration. *)

Inductive HandEvent : Type :=
  | Observed (current_gesture : option string) (fresh_y_offset : Q)
  | Recalibrated (y_offset : Q).

Definition hand_step (h : HandTrack) (e : HandEvent) : HandTrack :=
  match e with
  | Observed g fresh => debounce g fresh h
  | Recalibrated y_offset =>
      {| hand_status := TRACKING;
         gesture_streak := gesture_streak h;
         last_seen_gesture := last_seen_gesture h;
         hand_head_y_offset := y_offset |}
  end.

Definition hand_run (h : HandTrack) (es : list HandEvent) : HandTrack :=
  fold_left hand_step es h.

Definition initial_hand (y_offset : Q) : HandTrack :=
  {| hand_status := TRACKING;
     gesture_streak := 0;
     last_seen_gesture := None;
     hand_head_y_offset := y_offset |}.

(** The labels observed, oldest first. *)
Fixpoint observations (es : list HandEvent) : list (option string) :=
  match es with
  | [] => []
  | Observed g _ :: rest => g :: observations rest
  | Recalibrated _ :: rest => observations rest
  end.

(** No two consecutive labels are the same. *)
Fixpoint alternating (l : list (option string)) : Prop :=
  match l with
  | a :: (b :: _) as rest => a <> b /\ alternating rest
  | _ => True
  end.

(** ** Concrete inputs for the examples

    In every example pose the shoulder and hip midpoints coincide, so the
    torso vector is (0, 0), where [math.atan2] returns 0.0; [example_math]
    gives that value, the float [math.pi] and [np.rad2deg]'s scaling. *)

Definition float_pi : Q := 884279719003555 # 281474976710656.

Definition example_math : MathLib :=
  {| atan2 := fun _ _ => 0%Q;
     pi := float_pi;
     rad2deg := fun r => (r * (180 / float_pi))%Q |}.

Definition origin : Landmark := {| lm_x := 0; lm_y := 0; lm_z := 0 |}.

(** All landmarks at the origin, but the wrists (15, 16) at heights
    [left_y] and [right_y]. *)
Definition example_landmarks (left_y right_y : Q) : Landmarks :=
  fun i =>
    if (i =? 15)%nat then {| lm_x := 0; lm_y := left_y; lm_z := 0 |}
    else if (i =? 16)%nat then {| lm_x := 0; lm_y := right_y; lm_z := 0 |}
    else origin.

Definition example_pose (left_y right_y : Q) : PoseResult :=
  {| pose_world_landmarks := example_landmarks left_y right_y;
     pose_landmarks := example_landmarks 0 0 |}.

(** A gesture result that reports [g] for both hands. *)
Definition both (g : string) : GestureResult :=
  {| gestures := [g; g]; handedness := ["Left"%string; "Right"%string] |}.


Definition example_tick (t : Q) (left_y right_y : Q)
  (g : option GestureResult) : TickInput :=
  {| now := t;
     latest_pose_result := Some (example_pose left_y right_y);
     latest_gesture_result := g |}.

Definition no_pose_tick (t : Q) (g : option GestureResult) : TickInput :=
  {| now := t; latest_pose_result := None; latest_gesture_result := g |}.

(** A device whose axes were left deflected and whose first button is on. *)
Definition example_device : VJoyDevice :=
  {| axis_x := 1; axis_y := 32767; axis_z := 16384; axis_rx := 20000;
     buttons := [true; false; false; false];
     writes := [] |}.

(** Open palms at time 0 and 0.75, then closed fists twice: the engine is
    calibrated at the third tick. *)
Definition calibrating_ticks : list TickInput :=
  [ example_tick 0 0 0 (Some (both Open_Palm));
    example_tick (3 # 4) 0 0 (Some (both Open_Palm));
    example_tick 1 0 0 (Some (both Closed_Fist));
    example_tick (5 # 4) 0 0 (Some (both Closed_Fist)) ].

(** ** Predicates on states and runs *)

(** A baseline is stored exactly when the engine has calibrated, and the
    status [CALIBRATED] is only held by an engine that has. *)
Definition consistent (s : State) : Prop :=
  (is_calibrated s = true <-> initial_state s <> None)
  /\ (calibration_status s = CALIBRATED -> is_calibrated s = true).





(** The calibration step installs a new baseline on this tick. *)
Definition recalibrates (s : State) (t : TickInput) : Prop :=
  calibration_status s = READY_TO_SET
  /\ both_hands (current_gestures_of t) Closed_Fist = true.

(** The [set_axis] calls of each tick of a run, tick by tick. *)
Fixpoint output_sequence (M : MathLib) (w : World) (ticks : list TickInput)
  : list (list (HID_USAGE * Z)) :=
  match ticks with
  | [] => []
  | t :: rest =>
      match tick M w t with
      | Some w' =>
          skipn (length (writes (vjoy_device w))) (writes (vjoy_device w'))
          :: output_sequence M w' rest
      | None => []
      end
  end.

(** The pose sample and gesture labels of a tick, without the clock. *)
Definition perception (t : TickInput)
  : option PoseResult * option GestureResult :=
  (latest_pose_result t, latest_gesture_result t).

(** The ticks of [calibrating_ticks] with the clock read at 0, 1/4, 1/2 and
    3/4. *)
Definition hurried_ticks : list TickInput :=
  [ example_tick 0 0 0 (Some (both Open_Palm));
    example_tick (1 # 4) 0 0 (Some (both Open_Palm));
    example_tick (1 # 2) 0 0 (Some (both Closed_Fist));
    example_tick (3 # 4) 0 0 (Some (both Closed_Fist)) ].

(** A gesture result that reports [l] for the left and [r] for the right
    hand. *)
Definition hands (l r : string) : GestureResult :=
  {| gestures := [l; r]; handedness := ["Left"%string; "Right"%string] |}.

(** After the calibration the left hand opens for three ticks (released),
    then closes for two ticks, a quarter lower than at calibration. *)
Definition released_ticks : list TickInput :=
  calibrating_ticks
  ++ [ example_tick 2 0 0 (Some (hands Open_Palm Closed_Fist));
       example_tick 3 0 0 (Some (hands Open_Palm Closed_Fist));
       example_tick 4 0 0 (Some (hands Open_Palm Closed_Fist));
       example_tick 5 (1 # 4) 0 (Some (hands Closed_Fist Closed_Fist));
       example_tick 6 (1 # 4) 0 (Some (hands Closed_Fist Closed_Fist)) ].


(** The world a run of the example leaves. *)
Definition example_world (ticks : list TickInput) : World :=
  match run example_math (start example_device) ticks with
  | Some w => w
  | None => start example_device
  end.

(** Two states that differ at most in the arming start time, the second
    one's being the first one's moved by [c]. *)
Definition clock_shifted (c : Q) (s1 s2 : State) : Prop :=
  left_hand_status s1 = left_hand_status s2
  /\ right_hand_status s1 = right_hand_status s2
  /\ left_gesture_streak s1 = left_gesture_streak s2
  /\ right_gesture_streak s1 = right_gesture_streak s2
  /\ left_last_seen_gesture s1 = left_last_seen_gesture s2
  /\ right_last_seen_gesture s1 = right_last_seen_gesture s2
  /\ calibration_status s1 = calibration_status s2
  /\ pose_data_buffer s1 = pose_data_buffer s2
  /\ is_calibrated s1 = is_calibrated s2
  /\ initial_state s1 = initial_state s2
  /\ match arming_start_time s1, arming_start_time s2 with
     | Some a1, Some a2 => (a2 == a1 + c)%Q
     | None, None => True
     | _, _ => False
     end
  /\ (calibration_status s1 = ARMING -> arming_start_time s1 <> None).

(** Two ticks with the same pose sample and gesture labels, the second
    one's clock reading being the first one's moved by [c]. *)
Definition same_perception (c : Q) (t1 t2 : TickInput) : Prop :=
  perception t1 = perception t2 /\ (now t2 == now t1 + c)%Q.

(** [calibrating_ticks] ten seconds later. *)
Definition later_ticks : list TickInput :=
  [ example_tick 10 0 0 (Some (both Open_Palm));
    example_tick (43 # 4) 0 0 (Some (both Open_Palm));
    example_tick 11 0 0 (Some (both Closed_Fist));
    example_tick (45 # 4) 0 0 (Some (both Closed_Fist)) ].

(** The observations end with [gesture_streak] copies of the last seen
    gesture. *)
Definition streak_counted (obs : list (option string)) (h : HandTrack)
  : Prop :=
  exists older : list (option string),
    obs = older ++ repeat (last_seen_gesture h) (gesture_streak h).



(** ** The engine's hands as histories *)

Inductive Hand : Type := Left | Right.

Definition hand_name (hd : Hand) : string :=
  match hd with Left => "Left" | Right => "Right" end.

(** The hand's wrist landmark. *)
Definition wrist (hd : Hand) : nat :=
  match hd with Left => 15%nat | Right => 16%nat end.

(** One hand's variables in the engine state; the offset reads 0 while
    [initial_state] holds no baseline. *)
Definition hand_view (hd : Hand) (s : State) : HandTrack :=
  match hd with
  | Left =>
      {| hand_status := left_hand_status s;
         gesture_streak := left_gesture_streak s;
         last_seen_gesture := left_last_seen_gesture s;
         hand_head_y_offset :=
           match initial_state s with
           | Some b => left_hand_head_y_offset b
           | None => 0%Q
           end |}
  | Right =>
      {| hand_status := right_hand_status s;
         gesture_streak := right_gesture_streak s;
         last_seen_gesture := right_last_seen_gesture s;
         hand_head_y_offset :=
           match initial_state s with
           | Some b => right_hand_head_y_offset b
           | None => 0%Q
           end |}
  end.

(** The calibration step of this tick installs a baseline. *)
Definition recalibrating (s : State) (t : TickInput) : bool :=
  match calibration_status s with
  | READY_TO_SET => both_hands (current_gestures_of t) Closed_Fist
  | _ => false
  end.

(** What a tick does to one hand: a reset when the calibration step
    installs a baseline, then the debounce of the hand's label when the
    engine is calibrated. *)
Definition hand_events (M : MathLib) (hd : Hand) (s : State) (t : TickInput)
  : list HandEvent :=
  match latest_pose_result t with
  | None => []
  | Some res =>
      let s1 :=
        calibration_step M (now t) (current_gestures_of t)
          (buffer_pose s res) in
      (if recalibrating s t
       then [Recalibrated (hand_head_y_offset (hand_view hd s1))]
       else [])
      ++ (if is_calibrated s1
          then [Observed (current_gestures_of t !! hand_name hd)
                  (lm_y (pose_world_landmarks res (wrist hd))
                   - lm_y (pose_world_landmarks res 0%nat))%Q]
          else [])
  end.

Fixpoint hand_history (M : MathLib) (hd : Hand) (w : World)
  (ticks : list TickInput) : list HandEvent :=
  match ticks with
  | [] => []
  | t :: rest =>
      match tick M w t with
      | Some w' => hand_events M hd (engine w) t ++ hand_history M hd w' rest
      | None => []
      end
  end.

(** After the calibration the left hand opens for two ticks. *)
Definition opening_ticks : list TickInput :=
  calibrating_ticks
  ++ [ example_tick 2 0 0 (Some (hands Open_Palm Closed_Fist));
       example_tick 3 0 0 (Some (hands Open_Palm Closed_Fist)) ].

(** The third open palm. *)
Definition release_tick : TickInput :=
  example_tick 4 0 0 (Some (hands Open_Palm Closed_Fist)).

(** After the left hand is released (three open palms of the left hand),
    both hands show open palms at 8 and 9 (arming, then ready to set). *)
Definition rearming_ticks : list TickInput :=
  opening_ticks
  ++ [ release_tick;
       example_tick 8 0 0 (Some (both Open_Palm));
       example_tick 9 0 0 (Some (both Open_Palm)) ].

(** Both fists close: the re-calibration. *)
Definition recalibration_tick : TickInput :=
  example_tick 10 0 0 (Some (both Closed_Fist)).


(** ** Feedback colour (lines 62-71)

    [get_color_for_distance(distance, max_distance=0.5)]: the BGR colour of
    a bar, from green at distance 0 to red at [max_distance].  [None] is the
    [ZeroDivisionError] of [distance / max_distance]. *)

Definition get_color_for_distance (distance max_distance : Q)
  : option (Z * Z * Z) :=
  let distance := py_min distance max_distance in
  if Qeq_bool max_distance 0
  then None
  else
    let ratio := (distance / max_distance)%Q in
    let green := py_int (255 * (1 - ratio))%Q in
    let red := py_int (255 * ratio)%Q in
    Some (0%Z, green, red).

(** ** The poses a run has seen *)

(** The pose results of the ticks that carry one, oldest first. *)
Fixpoint poses_of (ticks : list TickInput) : list PoseResult :=
  match ticks with
  | [] => []
  | t :: rest =>
      match latest_pose_result t with
      | Some res => res :: poses_of rest
      | None => poses_of rest
      end
  end.

(** The last [n] elements of a list. *)
Definition last_n (n : nat) (l : list PoseResult) : list PoseResult :=
  skipn (length l - n) l.

(** A status change that the calibration state machine allows. *)
Definition calibration_edge (a b : CalibrationStatus) : Prop :=
  match a, b with
  | NOT_CALIBRATED, ARMING => True
  | ARMING, NOT_CALIBRATED => True
  | ARMING, CALIBRATED => True
  | ARMING, READY_TO_SET => True
  | READY_TO_SET, CALIBRATED => True
  | CALIBRATED, ARMING => True
  | _, _ => False
  end.

(** Every logged value from position [n] on lies between [lo] and [hi]. *)
Definition writes_within (lo hi : Z) (n : nat) (d : VJoyDevice) : Prop :=
  Forall (fun av => (lo <= snd av <= hi)%Z) (skipn n (writes d)).


(** The gesture that takes a hand out of a status, and the status it
    takes it to (lines 303-309). *)
Definition trigger (st : HandState) : string :=
  match st with TRACKING => Open_Palm | RELEASED => Closed_Fist end.

Definition flipped (st : HandState) : HandState :=
  match st with TRACKING => RELEASED | RELEASED => TRACKING end.

(** The flag and the timer agree with the status: not calibrated means
    the flag is off, and the arming time is set while arming and while
    ready to set. *)
Definition flags_agree (s : State) : Prop :=
  (calibration_status s = NOT_CALIBRATED -> is_calibrated s = false)
  /\ (calibration_status s = ARMING \/ calibration_status s = READY_TO_SET ->
      arming_start_time s <> None).

(** ** Proof automation *)

(** Splits a [clock_shifted] goal into its fields and closes them from the
    hypotheses. *)
Ltac shifted_fields :=
  unfold clock_shifted; simpl;
  repeat (split; [first [assumption | reflexivity | exact I] |]);
  try discriminate; try assumption.

(** ** Facts about the numerics *)

Lemma py_int_nonneg_floor (x : Q) : (0 <= x)%Q -> py_int x = Qfloor x.
Proof.
  destruct x as [n d]. unfold Qle, py_int, Qfloor. simpl. intros H.
  apply Z.quot_div_nonneg; lia.
Qed.


Lemma py_int_Qeq (x y : Q) : (x == y)%Q -> py_int x = py_int y.
Proof.
  intros H.
  destruct (Qlt_le_dec x 0) as [Hneg | Hpos].
  - assert (Hy : (y < 0)%Q) by (rewrite <- H; exact Hneg).
    assert (Hx' : (0 <= - x)%Q) by (apply Qlt_le_weak in Hneg; lra).
    assert (Hy' : (0 <= - y)%Q) by (apply Qlt_le_weak in Hy; lra).
    assert (E : py_int (- x) = py_int (- y)).
    { rewrite !py_int_nonneg_floor by assumption.
      apply Qfloor_comp. now rewrite H. }
    unfold py_int in *. simpl in E.
    rewrite !Z.quot_opp_l in E by discriminate. lia.
  - assert (Hy : (0 <= y)%Q) by (rewrite <- H; exact Hpos).
    rewrite !py_int_nonneg_floor by assumption.
    now apply Qfloor_comp.
Qed.

Lemma py_max_0_nonneg (x : Q) : (0 <= py_max 0 x)%Q.
Proof.
  unfold py_max. destruct (Qle_bool x 0) eqn:E; [lra |].
  destruct (Qlt_le_dec 0 x) as [H | H]; [lra |].
  apply Qle_bool_iff in H. congruence.
Qed.

Lemma py_max_0_pos (x : Q) : (0 < x)%Q -> py_max 0 x = x.
Proof.
  intros H. unfold py_max. destruct (Qle_bool x 0) eqn:E; [| reflexivity].
  apply Qle_bool_iff in E. lra.
Qed.

Lemma py_max_0_nonpos (x : Q) : (x <= 0)%Q -> py_max 0 x = 0%Q.
Proof.
  intros H. unfold py_max. apply Qle_bool_iff in H. now rewrite H.
Qed.

(** ** The axis mapping *)





(** ** Vertical travel and pull *)

Lemma pull_nonneg (travel : Q) : (0 <= pull travel)%Q.
Proof. apply py_max_0_nonneg. Qed.

Lemma pull_Qeq_0 (travel : Q) : (travel == 0)%Q -> pull travel = 0%Q.
Proof. intros H. apply py_max_0_nonpos. lra. Qed.

(** C1 (as the code has it).  A tracking hand's vertical travel is the
    negation of (current hand-to-head y-offset minus the reference
    y-offset), a released hand's is 0; the pull is max(0, -travel), so it is
    never negative, and it is positive exactly for a tracking hand whose
    y-offset has grown beyond its reference, where it equals that growth. *)
Theorem pull_is_max_of_negated_travel (s : State) (b : Baseline)
  (landmarks_3d : Landmarks) :
  let current_y_offset :=
    (lm_y (landmarks_3d 15%nat) - lm_y (landmarks_3d 0%nat))%Q in
  let travel := left_vertical_travel s b landmarks_3d in
  left_pull s b landmarks_3d = py_max 0 (- travel)
  /\ travel
     = match left_hand_status s with
       | TRACKING => (- (current_y_offset - left_hand_head_y_offset b))%Q
       | RELEASED => 0%Q
       end
  /\ (0 <= left_pull s b landmarks_3d)%Q
  /\ ((0 < left_pull s b landmarks_3d)%Q
      <-> left_hand_status s = TRACKING
          /\ (left_hand_head_y_offset b < current_y_offset)%Q)
  /\ ((0 < left_pull s b landmarks_3d)%Q ->
      (left_pull s b landmarks_3d
       == current_y_offset - left_hand_head_y_offset b)%Q).
Proof.
  cbv zeta. unfold left_pull, left_vertical_travel, vertical_travel.
  split; [reflexivity |]. split; [reflexivity |].
  split; [apply pull_nonneg |].
  destruct (left_hand_status s); unfold pull.
  - set (d := (lm_y (landmarks_3d 15%nat) - lm_y (landmarks_3d 0%nat)
               - left_hand_head_y_offset b)%Q).
    destruct (Qlt_le_dec 0 d) as [Hd | Hd].
    + rewrite py_max_0_pos by lra. split.
      * split; [intros _; split; [reflexivity | unfold d in Hd; lra] | lra].
      * intros _. lra.
    + rewrite py_max_0_nonpos by lra. split.
      * split; [lra | intros [_ H]; unfold d in Hd; lra].
      * lra.
  - rewrite py_max_0_nonpos by lra. split.
    + split; [lra | intros [H _]; discriminate].
    + lra.
Qed.

(** The same for the right hand (landmark 16, the Y axis). *)
Lemma right_pull_of_travel (s : State) (b : Baseline)
  (landmarks_3d : Landmarks) :
  let current_y_offset :=
    (lm_y (landmarks_3d 16%nat) - lm_y (landmarks_3d 0%nat))%Q in
  let travel := right_vertical_travel s b landmarks_3d in
  right_pull s b landmarks_3d = py_max 0 (- travel)
  /\ travel
     = match right_hand_status s with
       | TRACKING => (- (current_y_offset - right_hand_head_y_offset b))%Q
       | RELEASED => 0%Q
       end
  /\ ((0 < right_pull s b landmarks_3d)%Q
      <-> right_hand_status s = TRACKING
          /\ (right_hand_head_y_offset b < current_y_offset)%Q).
Proof.
  cbv zeta. unfold right_pull, right_vertical_travel, vertical_travel.
  split; [reflexivity |]. split; [reflexivity |].
  destruct (right_hand_status s); unfold pull.
  - set (d := (lm_y (landmarks_3d 16%nat) - lm_y (landmarks_3d 0%nat)
               - right_hand_head_y_offset b)%Q).
    destruct (Qlt_le_dec 0 d) as [Hd | Hd].
    + rewrite py_max_0_pos by lra.
      split; [intros _; split; [reflexivity | unfold d in Hd; lra] | lra].
    + rewrite py_max_0_nonpos by lra.
      split; [lra | intros [_ H]; unfold d in Hd; lra].
  - rewrite py_max_0_nonpos by lra.
    split; [lra | intros [H _]; discriminate].
Qed.

(** With the hand a quarter below where it was at calibration (y grows
    downward), the travel is -1/4 and the pull is 1/4, not max(0, travel). *)
Lemma pull_not_max_of_travel :
  exists (w : World) (b : Baseline),
    run example_math (start example_device) calibrating_ticks = Some w
    /\ initial_state (engine w) = Some b
    /\ (left_vertical_travel (engine w) b (example_landmarks (1 # 4) 0)
        == - (1 # 4))%Q
    /\ (left_pull (engine w) b (example_landmarks (1 # 4) 0) == 1 # 4)%Q
    /\ ~ (left_pull (engine w) b (example_landmarks (1 # 4) 0)
          == py_max 0
               (left_vertical_travel (engine w) b
                  (example_landmarks (1 # 4) 0)))%Q.
Proof.
  eexists. eexists.
  split; [vm_compute; reflexivity |].
  split; [reflexivity |].
  split; [vm_compute; reflexivity |].
  split; [vm_compute; reflexivity |].
  vm_compute. discriminate.
Qed.

(** ** The debounce of one hand *)

Lemma observe_same (g : option string) (h : HandTrack) :
  g = last_seen_gesture h ->
  observe g h
  = {| hand_status := hand_status h;
       gesture_streak := gesture_streak h + 1;
       last_seen_gesture := last_seen_gesture h;
       hand_head_y_offset := hand_head_y_offset h |}.
Proof. intros E. unfold observe. now rewrite bool_decide_eq_true_2. Qed.

Lemma observe_other (g : option string) (h : HandTrack) :
  g <> last_seen_gesture h ->
  observe g h
  = {| hand_status := hand_status h;
       gesture_streak := 1;
       last_seen_gesture := g;
       hand_head_y_offset := hand_head_y_offset h |}.
Proof. intros E. unfold observe. now rewrite bool_decide_eq_false_2. Qed.

Lemma observe_last_seen (g : option string) (h : HandTrack) :
  last_seen_gesture (observe g h) = g.
Proof.
  unfold observe. case_bool_decide; simpl; congruence.
Qed.

Lemma observe_status (g : option string) (h : HandTrack) :
  hand_status (observe g h) = hand_status h
  /\ hand_head_y_offset (observe g h) = hand_head_y_offset h.
Proof. unfold observe. case_bool_decide; simpl; auto. Qed.

Lemma confirm_last_seen (fresh : Q) (h : HandTrack) :
  last_seen_gesture (confirm fresh h) = last_seen_gesture h.
Proof.
  unfold confirm.
  destruct (GESTURE_STREAK_REQUIRED <=? gesture_streak h)%nat; [| reflexivity].
  destruct (hand_status h); case_bool_decide; reflexivity.
Qed.

Lemma confirm_streak_le (fresh : Q) (h : HandTrack) :
  (gesture_streak (confirm fresh h) <= gesture_streak h)%nat.
Proof.
  unfold confirm.
  destruct (GESTURE_STREAK_REQUIRED <=? gesture_streak h)%nat; [| lia].
  destruct (hand_status h); case_bool_decide; simpl; lia.
Qed.

(** A change of status in the threshold check: the streak has reached the
    threshold on the gesture that the change asks for; on a re-track the
    fresh offset is stored. *)
Lemma confirm_fires (fresh : Q) (h : HandTrack) :
  hand_status (confirm fresh h) <> hand_status h ->
  (GESTURE_STREAK_REQUIRED <= gesture_streak h)%nat
  /\ gesture_streak (confirm fresh h) = 0%nat
  /\ ((hand_status h = TRACKING
       /\ last_seen_gesture h = Some Open_Palm
       /\ hand_status (confirm fresh h) = RELEASED
       /\ hand_head_y_offset (confirm fresh h) = hand_head_y_offset h)
      \/ (hand_status h = RELEASED
          /\ last_seen_gesture h = Some Closed_Fist
          /\ hand_status (confirm fresh h) = TRACKING
          /\ hand_head_y_offset (confirm fresh h) = fresh)).
Proof.
  unfold confirm.
  destruct (GESTURE_STREAK_REQUIRED <=? gesture_streak h)%nat eqn:E;
    [| congruence].
  apply Nat.leb_le in E.
  destruct (hand_status h) eqn:St; case_bool_decide; simpl;
    try congruence; intros _; (split; [exact E |]); (split; [reflexivity |]);
    [left | right]; auto.
Qed.

Lemma confirm_below_threshold (fresh : Q) (h : HandTrack) :
  (gesture_streak h < GESTURE_STREAK_REQUIRED)%nat -> confirm fresh h = h.
Proof.
  intros H. unfold confirm.
  destruct (GESTURE_STREAK_REQUIRED <=? gesture_streak h)%nat eqn:E;
    [apply Nat.leb_le in E; lia | reflexivity].
Qed.



(** ** One hand's history: the streak counts identical observations *)

Lemma observations_app (es1 es2 : list HandEvent) :
  observations (es1 ++ es2) = observations es1 ++ observations es2.
Proof.
  induction es1 as [| [g fresh | y] es1 IH]; simpl; [reflexivity | |];
    now rewrite IH.
Qed.

Lemma hand_run_snoc (h : HandTrack) (es : list HandEvent) (e : HandEvent) :
  hand_run h (es ++ [e]) = hand_step (hand_run h es) e.
Proof. unfold hand_run. now rewrite fold_left_app. Qed.

Lemma streak_counted_observe (obs : list (option string))
  (g : option string) (h : HandTrack) :
  streak_counted obs h -> streak_counted (obs ++ [g]) (observe g h).
Proof.
  intros [older E]. unfold streak_counted.
  destruct (decide (g = last_seen_gesture h)) as [Eg | Eg].
  - rewrite observe_same by exact Eg. simpl.
    exists older. rewrite E, <- app_assoc. f_equal.
    rewrite Nat.add_1_r. subst g. now rewrite <- repeat_cons.
  - rewrite observe_other by exact Eg. simpl.
    exists obs. reflexivity.
Qed.

Lemma streak_counted_confirm (obs : list (option string)) (fresh : Q)
  (h : HandTrack) :
  streak_counted obs h -> streak_counted obs (confirm fresh h).
Proof.
  intros [older E]. unfold streak_counted.
  rewrite confirm_last_seen.
  pose proof (confirm_streak_le fresh h) as Hle.
  exists (older ++ repeat (last_seen_gesture h)
                     (gesture_streak h - gesture_streak (confirm fresh h))).
  rewrite E, <- app_assoc. f_equal.
  rewrite <- repeat_app. f_equal. lia.
Qed.

Lemma hand_run_streak_counted (y0 : Q) (es : list HandEvent) :
  streak_counted (observations es) (hand_run (initial_hand y0) es).
Proof.
  induction es as [| e es IH] using rev_ind.
  - exists []. reflexivity.
  - rewrite hand_run_snoc, observations_app.
    destruct e as [g fresh | y]; simpl.
    + unfold debounce.
      now apply streak_counted_confirm, streak_counted_observe.
    + rewrite app_nil_r. exact IH.
Qed.

Lemma hand_run_last_seen (y0 : Q) (es : list HandEvent) :
  last_seen_gesture (hand_run (initial_hand y0) es)
  = List.last (observations es) None.
Proof.
  induction es as [| e es IH] using rev_ind; [reflexivity |].
  rewrite hand_run_snoc, observations_app.
  destruct e as [g fresh | y]; simpl.
  - unfold debounce. rewrite confirm_last_seen, observe_last_seen.
    now rewrite List.last_last.
  - now rewrite app_nil_r.
Qed.

Lemma alternating_snoc (l : list (option string)) (g : option string) :
  alternating (l ++ [g]) ->
  alternating l /\ (l <> [] -> List.last l None <> g).
Proof.
  induction l as [| a l IH]; [simpl; intuition |].
  destruct l as [| b l].
  - simpl. intros [H _]. split; [exact I | intros _; exact H].
  - intros [Hab Hrest]. destruct (IH Hrest) as [Halt Hlast].
    split; [split; assumption |].
    intros _. change (List.last (b :: l) None <> g).
    apply Hlast. discriminate.
Qed.

Lemma alternating_hand_run (y0 : Q) (es : list HandEvent) :
  alternating (observations es) ->
  hand_status (hand_run (initial_hand y0) es) = TRACKING
  /\ (gesture_streak (hand_run (initial_hand y0) es) <= 1)%nat.
Proof.
  induction es as [| e es IH] using rev_ind; [simpl; auto |].
  rewrite hand_run_snoc, observations_app.
  destruct e as [g fresh | y]; simpl.
  - intros Halt. apply alternating_snoc in Halt as [Halt Hlast].
    destruct (IH Halt) as [Hst Hstreak].
    pose proof (hand_run_last_seen y0 es) as Hseen.
    set (h := hand_run (initial_hand y0) es) in *.
    assert (Hobs : hand_status (observe g h) = TRACKING
                   /\ (gesture_streak (observe g h) <= 1)%nat).
    { destruct (decide (g = last_seen_gesture h)) as [Eg | Eg].
      - rewrite observe_same by exact Eg. simpl. split; [exact Hst |].
        destruct (observations es) as [| o obs] eqn:Eobs.
        + pose proof (hand_run_streak_counted y0 es) as [older Holder].
          fold h in Holder. rewrite Eobs in Holder.
          symmetry in Holder. apply app_eq_nil in Holder as [_ Hrep].
          destruct (gesture_streak h); [lia | discriminate].
        + exfalso. apply Hlast; [discriminate |]. congruence.
      - rewrite observe_other by exact Eg. simpl. auto. }
    unfold debounce. rewrite confirm_below_threshold; [exact Hobs |].
    unfold GESTURE_STREAK_REQUIRED. lia.
  - rewrite app_nil_r. intros Halt. destruct (IH Halt) as [_ Hstreak].
    auto.
Qed.

(** A debounce that changes the hand's status has its label as the last
    three observations of the hand's history. *)
Lemma debounce_fires_after_three (y0 : Q) (es : list HandEvent)
  (g : option string) (fresh : Q) :
  let h := hand_run (initial_hand y0) es in
  hand_status (debounce g fresh h) <> hand_status h ->
  (exists older : list (option string),
      observations (es ++ [Observed g fresh]) = older ++ [g; g; g])
  /\ ((hand_status h = TRACKING /\ g = Some Open_Palm)
      \/ (hand_status h = RELEASED /\ g = Some Closed_Fist)).
Proof.
  intros h Hchange.
  unfold debounce in Hchange.
  assert (Hchange' : hand_status (confirm fresh (observe g h))
                     <> hand_status (observe g h)).
  { now rewrite (proj1 (observe_status g h)). }
  apply confirm_fires in Hchange' as (Hthr & _ & Hcase).
  rewrite observe_last_seen, (proj1 (observe_status g h)) in Hcase.
  split.
  - pose proof (streak_counted_observe _ g h
                  (hand_run_streak_counted y0 es)) as [older E].
    rewrite observe_last_seen in E.
    rewrite observations_app. simpl.
    unfold GESTURE_STREAK_REQUIRED in Hthr.
    exists (older ++ repeat g (gesture_streak (observe g h) - 3)).
    rewrite E, <- app_assoc. f_equal.
    change [g; g; g] with (repeat g 3). rewrite <- repeat_app.
    f_equal. lia.
  - destruct Hcase as [(H1 & H2 & _) | (H1 & H2 & _)]; auto.
Qed.

(** ** The engine: calibration and baseline *)

Section EngineFacts.

Variable M : MathLib.

Lemma deque_append_not_nil (buffer : list PoseResult) (res : PoseResult) :
  deque_append buffer res <> [].
Proof.
  unfold deque_append.
  destruct (BUFFER_MAXLEN <=? length buffer)%nat;
    intros H; apply app_eq_nil in H as [_ H]; discriminate.
Qed.

Lemma deque_append_length (buffer : list PoseResult) (res : PoseResult) :
  (length buffer <= BUFFER_MAXLEN)%nat ->
  (length (deque_append buffer res) <= BUFFER_MAXLEN)%nat.
Proof.
  unfold deque_append, BUFFER_MAXLEN. intros H.
  destruct (5 <=? length buffer)%nat eqn:E.
  - apply Nat.leb_le in E. destruct buffer; simpl in *; [lia |].
    rewrite length_app. simpl. lia.
  - apply Nat.leb_gt in E. rewrite length_app. simpl. lia.
Qed.

Lemma average_initial_state_None (buffer : list PoseResult) :
  average_initial_state M buffer = None <-> buffer = [].
Proof.
  destruct buffer; simpl; split; congruence.
Qed.

Lemma calibration_step_consistent (now : Q) (cg : gmap string string)
  (s : State) :
  pose_data_buffer s <> [] ->
  consistent s -> consistent (calibration_step M now cg s).
Proof.
  intros Hbuf Hc. pose proof Hc as [Hiff Hcal]. unfold calibration_step.
  destruct (calibration_status s) eqn:St.
  - destruct (both_hands cg Open_Palm); [| exact Hc].
    split; simpl; [exact Hiff | discriminate].
  - destruct (negb (both_hands cg Open_Palm)).
    + split; simpl; [exact Hiff |].
      destruct (is_calibrated s); [reflexivity | discriminate].
    + destruct (Qle_bool _ _); [| exact Hc].
      split; simpl; [exact Hiff | discriminate].
  - destruct (both_hands cg Closed_Fist); [| exact Hc].
    destruct (average_initial_state M (pose_data_buffer s)) eqn:Avg.
    + split; simpl; [| reflexivity]. split; [discriminate | reflexivity].
    + apply average_initial_state_None in Avg. contradiction.
  - destruct (both_hands cg Open_Palm); [| exact Hc].
    split; simpl; [exact Hiff | discriminate].
Qed.

Lemma buffer_pose_consistent (s : State) (res : PoseResult) :
  consistent s -> consistent (buffer_pose s res).
Proof. intros H. exact H. Qed.

(** What a tick with a pose does: buffer, calibration step, and on a
    calibrated engine the debounce and the four axis writes. *)
Lemma tick_with_pose (w w' : World) (t : TickInput) (res : PoseResult) :
  latest_pose_result t = Some res ->
  tick M w t = Some w' ->
  let s := calibration_step M (now t) (current_gestures_of t)
             (buffer_pose (engine w) res) in
  (is_calibrated s = false
   /\ w' = {| engine := s; vjoy_device := vjoy_device w |})
  \/ (is_calibrated s = true
      /\ exists b : Baseline,
           initial_state s = Some b
           /\ w' = {| engine :=
                        fst (debounce_hands (current_gestures_of t)
                               (pose_world_landmarks res) s b);
                      vjoy_device :=
                        vjoy_update M (vjoy_device w)
                          (fst (debounce_hands (current_gestures_of t)
                                  (pose_world_landmarks res) s b))
                          (snd (debounce_hands (current_gestures_of t)
                                  (pose_world_landmarks res) s b))
                          (pose_world_landmarks res) |}).
Proof.
  intros Hpose Htick. cbv zeta. unfold tick in Htick. rewrite Hpose in Htick.
  cbv zeta in Htick.
  destruct (is_calibrated (calibration_step M (now t) (current_gestures_of t)
                             (buffer_pose (engine w) res))) eqn:Cal.
  - right. split; [reflexivity |].
    destruct (initial_state (calibration_step M (now t)
                 (current_gestures_of t) (buffer_pose (engine w) res)))
      as [b |] eqn:Init; [| discriminate].
    exists b. split; [reflexivity |].
    destruct (debounce_hands _ _ _ b) as [s' b'] eqn:Deb.
    simpl. congruence.
  - left. split; [reflexivity | congruence].
Qed.

Lemma tick_without_pose (w : World) (t : TickInput) :
  latest_pose_result t = None -> tick M w t = Some w.
Proof. intros H. unfold tick. now rewrite H. Qed.

Lemma tick_consistent (w w' : World) (t : TickInput) :
  consistent (engine w) -> tick M w t = Some w' -> consistent (engine w').
Proof.
  intros Hc Htick.
  destruct (latest_pose_result t) as [res |] eqn:Hpose.
  - assert (Hs : consistent (calibration_step M (now t) (current_gestures_of t)
                               (buffer_pose (engine w) res))).
    { apply calibration_step_consistent; [apply deque_append_not_nil |].
      now apply buffer_pose_consistent. }
    destruct (tick_with_pose w w' t res Hpose Htick)
      as [[_ ->] | [Hcal (b & Hb & ->)]]; [exact Hs |].
    destruct Hs as [Hiff Hst]. split; simpl.
    + split; [discriminate | intros _; exact Hcal].
    + intros _. exact Hcal.
  - rewrite tick_without_pose in Htick by exact Hpose. congruence.
Qed.

(** On a consistent engine a tick raises no exception. *)
Lemma tick_total (w : World) (t : TickInput) :
  consistent (engine w) -> exists w' : World, tick M w t = Some w'.
Proof.
  intros Hc. unfold tick.
  destruct (latest_pose_result t) as [res |]; [| eauto]. cbv zeta.
  pose proof (calibration_step_consistent (now t) (current_gestures_of t)
                (buffer_pose (engine w) res)
                (deque_append_not_nil _ _)
                (buffer_pose_consistent _ res Hc)) as [Hiff _].
  destruct (is_calibrated _) eqn:Cal; [| eauto].
  destruct (initial_state _) as [b |] eqn:Init.
  - destruct (debounce_hands _ _ _ b). eauto.
  - exfalso. now apply Hiff.
Qed.

Lemma run_snoc (w : World) (ticks : list TickInput) (t : TickInput) :
  run M w (ticks ++ [t])
  = match run M w ticks with
    | Some w' => tick M w' t
    | None => None
    end.
Proof.
  revert w. induction ticks as [| a ticks IH]; intros w; simpl.
  - destruct (tick M w t); reflexivity.
  - destruct (tick M w a); [apply IH | reflexivity].
Qed.

Lemma run_consistent (w w' : World) (ticks : list TickInput) :
  consistent (engine w) -> run M w ticks = Some w' -> consistent (engine w').
Proof.
  revert w. induction ticks as [| t ticks IH]; intros w Hc Hrun; simpl in Hrun.
  - congruence.
  - destruct (tick M w t) as [w1 |] eqn:Ht; [| discriminate].
    eapply IH; [| exact Hrun]. eapply tick_consistent; eassumption.
Qed.

Lemma run_total (w : World) (ticks : list TickInput) :
  consistent (engine w) -> exists w' : World, run M w ticks = Some w'.
Proof.
  revert w. induction ticks as [| t ticks IH]; intros w Hc; simpl; [eauto |].
  destruct (tick_total w t Hc) as [w1 Ht]. rewrite Ht.
  apply IH. eapply tick_consistent; eassumption.
Qed.

Lemma fresh_state_consistent : consistent fresh_state.
Proof.
  split; simpl; [| discriminate]. split; [discriminate | congruence].
Qed.

(** C5 (as the code has it).  Every run from the start ends, without an
    exception, in a state where a baseline is stored exactly when the
    engine has calibrated ([is_calibrated]); a state with status
    [CALIBRATED] has a baseline. *)
Theorem baseline_iff_is_calibrated (d : VJoyDevice) (ticks : list TickInput)
  (w : World) :
  run M (start d) ticks = Some w ->
  (initial_state (engine w) <> None <-> is_calibrated (engine w) = true)
  /\ (calibration_status (engine w) = CALIBRATED ->
      initial_state (engine w) <> None).
Proof.
  intros Hrun.
  destruct (run_consistent (start d) w ticks fresh_state_consistent Hrun)
    as [Hiff Hst].
  split; [symmetry; exact Hiff |].
  intros H. apply Hiff, Hst, H.
Qed.

Lemma run_from_start_total (d : VJoyDevice) (ticks : list TickInput) :
  exists w : World, run M (start d) ticks = Some w.
Proof. apply run_total, fresh_state_consistent. Qed.

End EngineFacts.

Lemma baseline_iff_is_calibrated_witness :
  exists w : World,
    run example_math (start example_device) calibrating_ticks = Some w
    /\ (initial_state (engine w) <> None <-> is_calibrated (engine w) = true).
Proof.
  destruct (run_from_start_total example_math example_device
              calibrating_ticks) as [w Hw].
  exists w. split; [exact Hw |].
  exact (proj1 (baseline_iff_is_calibrated example_math example_device
                  calibrating_ticks w Hw)).
Defined.

(** After a calibration, two open palms start a re-calibration: the status
    is [ARMING] and the baseline is still stored. *)
Lemma baseline_while_arming :
  exists w : World,
    run example_math (start example_device)
      (calibrating_ticks ++ [example_tick 2 0 0 (Some (both Open_Palm))])
    = Some w
    /\ calibration_status (engine w) = ARMING
    /\ initial_state (engine w) <> None.
Proof.
  eexists. split; [vm_compute; reflexivity |].
  split; [reflexivity | discriminate].
Qed.

(** ** The device *)

Lemma set_axis_buttons (d : VJoyDevice) (a : HID_USAGE) (v : Z) :
  buttons (set_axis d a v) = buttons d.
Proof. destruct a; reflexivity. Qed.

Lemma set_axis_writes (d : VJoyDevice) (a : HID_USAGE) (v : Z) :
  writes (set_axis d a v) = writes d ++ [(a, v)].
Proof. destruct a; reflexivity. Qed.

Lemma vjoy_update_writes (M : MathLib) (d : VJoyDevice) (s : State)
  (b : Baseline) (lms : Landmarks) :
  writes (vjoy_update M d s b lms)
  = writes d
    ++ [ (HID_USAGE_X,
          map_to_vjoy_axis (norm_left_brake (left_vertical_travel s b lms)));
         (HID_USAGE_Y,
          map_to_vjoy_axis (norm_right_brake (right_vertical_travel s b lms)));
         (HID_USAGE_RX, map_to_vjoy_axis (norm_lean M b lms));
         (HID_USAGE_Z, VJOY_CENTER) ].
Proof.
  unfold vjoy_update. cbv zeta. rewrite !set_axis_writes, <- !app_assoc.
  reflexivity.
Qed.

Lemma vjoy_update_axes (M : MathLib) (d : VJoyDevice) (s : State)
  (b : Baseline) (lms : Landmarks) :
  axis_x (vjoy_update M d s b lms)
  = map_to_vjoy_axis (norm_left_brake (left_vertical_travel s b lms))
  /\ axis_y (vjoy_update M d s b lms)
     = map_to_vjoy_axis (norm_right_brake (right_vertical_travel s b lms))
  /\ axis_rx (vjoy_update M d s b lms) = map_to_vjoy_axis (norm_lean M b lms)
  /\ axis_z (vjoy_update M d s b lms) = VJOY_CENTER
  /\ buttons (vjoy_update M d s b lms) = buttons d.
Proof. repeat split. Qed.

Lemma tick_buttons (M : MathLib) (w w' : World) (t : TickInput) :
  tick M w t = Some w' ->
  buttons (vjoy_device w') = buttons (vjoy_device w)
  /\ exists new : list (HID_USAGE * Z),
       writes (vjoy_device w') = writes (vjoy_device w) ++ new.
Proof.
  intros Htick.
  destruct (latest_pose_result t) as [res |] eqn:Hpose.
  - destruct (tick_with_pose M w w' t res Hpose Htick)
      as [[_ ->] | [_ (b & _ & ->)]]; cbn [vjoy_device].
    + split; [reflexivity | exists []; now rewrite app_nil_r].
    + split; [reflexivity |]. rewrite vjoy_update_writes. eauto.
  - rewrite tick_without_pose in Htick by exact Hpose.
    injection Htick as <-.
    split; [reflexivity | exists []; now rewrite app_nil_r].
Qed.

Lemma run_buttons (M : MathLib) (w w' : World) (ticks : list TickInput) :
  run M w ticks = Some w' ->
  buttons (vjoy_device w') = buttons (vjoy_device w).
Proof.
  revert w. induction ticks as [| t ticks IH]; intros w Hrun; simpl in Hrun.
  - congruence.
  - destruct (tick M w t) as [w1 |] eqn:Ht; [| discriminate].
    rewrite (IH w1 Hrun). now apply tick_buttons in Ht as [-> _].
Qed.

(** C8 (as the code has it).  Whatever the device held and whatever the
    loop did, the program ends with the four axes X, Y, Z and RX at the
    centre, these four writes being the last ones, in this order; it writes
    no button: the buttons are what they were at the start. *)
Theorem shutdown_centres_axes (M : MathLib) (d : VJoyDevice)
  (ticks : list TickInput) :
  exists d' : VJoyDevice,
    main M d ticks = Some d'
    /\ axis_x d' = VJOY_CENTER /\ axis_y d' = VJOY_CENTER
    /\ axis_z d' = VJOY_CENTER /\ axis_rx d' = VJOY_CENTER
    /\ buttons d' = buttons d
    /\ exists earlier : list (HID_USAGE * Z),
         writes d'
         = earlier
           ++ [ (HID_USAGE_X, VJOY_CENTER); (HID_USAGE_Y, VJOY_CENTER);
                (HID_USAGE_Z, VJOY_CENTER); (HID_USAGE_RX, VJOY_CENTER) ].
Proof.
  destruct (run_from_start_total M d ticks) as [w Hrun].
  exists (shutdown (vjoy_device w)).
  unfold main. rewrite Hrun.
  split; [reflexivity |].
  repeat (split; [reflexivity |]).
  split.
  - unfold shutdown. cbv zeta. rewrite !set_axis_buttons.
    exact (run_buttons M (start d) w ticks Hrun).
  - exists (writes (vjoy_device w)).
    unfold shutdown. cbv zeta. rewrite !set_axis_writes, <- !app_assoc.
    reflexivity.
Qed.

(** A button that was on before the program started is still on after the
    shutdown. *)
Lemma shutdown_leaves_button_on :
  exists d' : VJoyDevice,
    main example_math example_device calibrating_ticks = Some d'
    /\ nth_error (buttons d') 0 = Some true.
Proof. eexists. split; [vm_compute; reflexivity | reflexivity]. Qed.

(** C9 (as the code has it).  A tick without a pose sample changes nothing:
    neither the engine state nor the device, to which it writes nothing.  A
    tick with a pose sample that leaves the engine calibrated writes the
    four axes X, Y, RX and Z, once each; one that leaves it not calibrated
    writes nothing. *)
Theorem tick_writes_axes (M : MathLib) (w w' : World) (t : TickInput) :
  tick M w t = Some w' ->
  (latest_pose_result t = None -> w' = w)
  /\ (latest_pose_result t <> None ->
      is_calibrated (engine w') = false ->
      vjoy_device w' = vjoy_device w)
  /\ (latest_pose_result t <> None ->
      is_calibrated (engine w') = true ->
      exists vx vy vrx : Z,
        writes (vjoy_device w')
        = writes (vjoy_device w)
          ++ [ (HID_USAGE_X, vx); (HID_USAGE_Y, vy); (HID_USAGE_RX, vrx);
               (HID_USAGE_Z, VJOY_CENTER) ]
        /\ axis_x (vjoy_device w') = vx /\ axis_y (vjoy_device w') = vy
        /\ axis_rx (vjoy_device w') = vrx
        /\ axis_z (vjoy_device w') = VJOY_CENTER).
Proof.
  intros Htick. split; [| split].
  - intros Hpose. rewrite tick_without_pose in Htick by exact Hpose.
    congruence.
  - intros Hpose Hcal.
    destruct (latest_pose_result t) as [res |] eqn:E; [| contradiction].
    destruct (tick_with_pose M w w' t res E Htick)
      as [[_ ->] | [Hc (b & _ & ->)]]; [reflexivity |].
    simpl in Hcal. congruence.
  - intros Hpose Hcal.
    destruct (latest_pose_result t) as [res |] eqn:E; [| contradiction].
    destruct (tick_with_pose M w w' t res E Htick)
      as [[Hc ->] | [Hc (b & _ & ->)]]; [simpl in Hcal; congruence |].
    cbn [vjoy_device]. do 3 eexists.
    split; [apply vjoy_update_writes |]. repeat split.
Qed.

Lemma tick_writes_axes_witness :
  exists w' : World,
    tick example_math (start example_device) (no_pose_tick 0 None) = Some w'
    /\ w' = start example_device.
Proof.
  exists (start example_device). split; [reflexivity |].
  exact (proj1 (tick_writes_axes example_math (start example_device)
                  (start example_device) (no_pose_tick 0 None) eq_refl)
           eq_refl).
Defined.

(** A tick without a pose on a calibrated engine makes no [set_axis] call,
    and neither does a tick with a pose before the first calibration. *)
Lemma tick_without_writes :
  (exists w : World,
      run example_math (start example_device) calibrating_ticks = Some w
      /\ is_calibrated (engine w) = true
      /\ tick_writes example_math w (no_pose_tick 2 (Some (both Closed_Fist)))
         = Some [])
  /\ tick_writes example_math (start example_device)
       (example_tick 0 0 0 (Some (both Closed_Fist)))
     = Some [].
Proof.
  split; [| vm_compute; reflexivity].
  eexists. split; [vm_compute; reflexivity |].
  split; [reflexivity | vm_compute; reflexivity].
Qed.

(** ** The engine: the hands on a tick *)

Section HandFacts.

Variable M : MathLib.

(** The calibration step never touches streaks, last seen gestures or the
    buffer; unless it installs a new baseline it leaves the hands' status,
    [is_calibrated] and [initial_state] alone as well. *)
Lemma calibration_step_keeps (now : Q) (cg : gmap string string) (s : State) :
  let s' := calibration_step M now cg s in
  left_gesture_streak s' = left_gesture_streak s
  /\ right_gesture_streak s' = right_gesture_streak s
  /\ left_last_seen_gesture s' = left_last_seen_gesture s
  /\ right_last_seen_gesture s' = right_last_seen_gesture s
  /\ pose_data_buffer s' = pose_data_buffer s
  /\ (~ (calibration_status s = READY_TO_SET
         /\ both_hands cg Closed_Fist = true) ->
      left_hand_status s' = left_hand_status s
      /\ right_hand_status s' = right_hand_status s
      /\ is_calibrated s' = is_calibrated s
      /\ initial_state s' = initial_state s).
Proof.
  cbv zeta. unfold calibration_step.
  destruct (calibration_status s) eqn:St.
  - destruct (both_hands cg Open_Palm); simpl; repeat split.
  - destruct (negb (both_hands cg Open_Palm)); simpl; [repeat split |].
    destruct (Qle_bool _ _); simpl; repeat split.
  - destruct (both_hands cg Closed_Fist) eqn:Fists.
    + destruct (average_initial_state M (pose_data_buffer s)); simpl;
        do 5 (split; [reflexivity |]); intros Hno; exfalso; apply Hno; auto.
    + repeat split.
  - destruct (both_hands cg Open_Palm); simpl; repeat split.
Qed.

Lemma debounce_hands_tracks (cg : gmap string string) (lms : Landmarks)
  (s : State) (b : Baseline) :
  let s' := fst (debounce_hands cg lms s b) in
  let b' := snd (debounce_hands cg lms s b) in
  left_track s' b'
  = debounce (cg !! "Left")
      (lm_y (lms 15%nat) - lm_y (lms 0%nat)) (left_track s b)
  /\ right_track s' b'
     = debounce (cg !! "Right")
         (lm_y (lms 16%nat) - lm_y (lms 0%nat)) (right_track s b).
Proof.
  cbv zeta. unfold debounce_hands. cbv zeta. unfold left_track at 1.
  unfold right_track at 1. cbn [fst snd left_hand_status right_hand_status
    left_gesture_streak right_gesture_streak left_last_seen_gesture
    right_last_seen_gesture with_offsets left_hand_head_y_offset
    right_hand_head_y_offset].
  split.
  - destruct (debounce (cg !! "Left") _ (left_track s b)); reflexivity.
  - destruct (debounce (cg !! "Right") _ (right_track s b)); reflexivity.
Qed.


(** A re-track by the debounce: the label is the closed fist and the fresh
    offset is stored. *)
Lemma debounce_retrack (g : option string) (fresh : Q) (h : HandTrack) :
  hand_status h = RELEASED ->
  hand_status (debounce g fresh h) = TRACKING ->
  g = Some Closed_Fist /\ hand_head_y_offset (debounce g fresh h) = fresh.
Proof.
  intros Hrel Htrk. unfold debounce in *.
  assert (Hch : hand_status (confirm fresh (observe g h))
                <> hand_status (observe g h)).
  { rewrite (proj1 (observe_status g h)). congruence. }
  apply confirm_fires in Hch as (_ & _ & [(H1 & _) | (_ & H2 & _ & H4)]).
  - rewrite (proj1 (observe_status g h)) in H1. congruence.
  - rewrite observe_last_seen in H2. auto.
Qed.


Lemma norm_right_brake_Qeq_0 (travel : Q) :
  (travel == 0)%Q -> norm_right_brake travel = norm_right_brake 0.
Proof.
  intros H. unfold norm_right_brake.
  rewrite (pull_Qeq_0 travel H), (pull_Qeq_0 0) by reflexivity. reflexivity.
Qed.


(** The same for the right hand and the Y axis. *)
Lemma right_hand_retrack (w w' : World) (t : TickInput)
  (res : PoseResult) :
  tick M w t = Some w' ->
  latest_pose_result t = Some res ->
  ~ recalibrates (engine w) t ->
  right_hand_status (engine w) = RELEASED ->
  right_hand_status (engine w') = TRACKING ->
  current_gestures_of t !! "Right" = Some Closed_Fist
  /\ exists b' : Baseline,
       initial_state (engine w') = Some b'
       /\ right_hand_head_y_offset b'
          = (lm_y (pose_world_landmarks res 16%nat)
             - lm_y (pose_world_landmarks res 0%nat))%Q
       /\ (right_vertical_travel (engine w') b' (pose_world_landmarks res)
           == 0)%Q
       /\ axis_y (vjoy_device w') = map_to_vjoy_axis (norm_right_brake 0).
Proof.
  intros Htick Hpose Hnorecal Hrel Htrk.
  pose proof (calibration_step_keeps (now t) (current_gestures_of t)
                (buffer_pose (engine w) res)) as Hkeep.
  cbv zeta in Hkeep. destruct Hkeep as (_ & _ & _ & _ & _ & Hkeep).
  destruct (Hkeep Hnorecal) as (_ & Hr & _ & _).
  cbn [buffer_pose right_hand_status] in Hr.
  destruct (tick_with_pose M w w' t res Hpose Htick)
    as [[_ ->] | [_ (b & Hb & ->)]].
  - cbn [engine] in Htrk. congruence.
  - cbn [engine vjoy_device] in *.
    set (s := calibration_step M (now t) (current_gestures_of t)
                (buffer_pose (engine w) res)) in *.
    pose proof (debounce_hands_tracks (current_gestures_of t)
                  (pose_world_landmarks res) s b) as [_ Hright].
    cbv zeta in Hright.
    set (s' := fst (debounce_hands (current_gestures_of t)
                      (pose_world_landmarks res) s b)) in *.
    set (b' := snd (debounce_hands (current_gestures_of t)
                      (pose_world_landmarks res) s b)) in *.
    assert (Hst : hand_status (right_track s' b') = TRACKING) by exact Htrk.
    rewrite Hright in Hst.
    apply debounce_retrack in Hst as [Hg Hoff];
      [| cbn [right_track hand_status]; congruence].
    split; [exact Hg |].
    assert (Hoff' : right_hand_head_y_offset b'
                    = (lm_y (pose_world_landmarks res 16%nat)
                       - lm_y (pose_world_landmarks res 0%nat))%Q).
    { rewrite <- Hoff, <- Hright. reflexivity. }
    assert (Htravel : (right_vertical_travel s' b' (pose_world_landmarks res)
                       == 0)%Q).
    { unfold right_vertical_travel, vertical_travel. rewrite Htrk, Hoff'.
      ring. }
    exists b'. split; [reflexivity |].
    split; [exact Hoff' |]. split; [exact Htravel |].
    rewrite <- (norm_right_brake_Qeq_0 _ Htravel). reflexivity.
Qed.

End HandFacts.





(** ** The clock *)

Section Clock.

Variable M : MathLib.

Lemma or_0_Some (v : Q) : (or_0 (Some v) == v)%Q.
Proof.
  unfold or_0. destruct (Qeq_bool v 0) eqn:E; [| reflexivity].
  apply Qeq_bool_iff in E. now rewrite E.
Qed.

Lemma elapsed_shifted (c now1 now2 a1 a2 : Q) :
  (now2 == now1 + c)%Q -> (a2 == a1 + c)%Q ->
  Qle_bool (1 # 2) (now2 - or_0 (Some a2))
  = Qle_bool (1 # 2) (now1 - or_0 (Some a1)).
Proof.
  intros Hn Ha. apply eq_true_iff_eq. rewrite !Qle_bool_iff.
  rewrite !or_0_Some, Hn, Ha. split; intros H; lra.
Qed.

Lemma calibration_step_shifted (c now1 now2 : Q) (cg : gmap string string)
  (s1 s2 : State) :
  (now2 == now1 + c)%Q ->
  clock_shifted c s1 s2 ->
  clock_shifted c (calibration_step M now1 cg s1)
    (calibration_step M now2 cg s2).
Proof.
  intros Hn Hs. pose proof Hs as Hs'.
  destruct Hs' as (H1 & H2 & H3 & H4 & H5 & H6 & H7 & H8 & H9 & H10
                   & H11 & H12).
  unfold calibration_step. rewrite <- H7.
  destruct (calibration_status s1) eqn:St.
  - destruct (both_hands cg Open_Palm); [| exact Hs]. shifted_fields.
  - destruct (negb (both_hands cg Open_Palm)).
    + rewrite <- H9. shifted_fields.
      destruct (is_calibrated s1); discriminate.
    + destruct (arming_start_time s1) as [a1 |] eqn:A1;
        [| exfalso; now apply H12].
      destruct (arming_start_time s2) as [a2 |] eqn:A2; [| contradiction].
      rewrite (elapsed_shifted c now1 now2 a1 a2 Hn H11).
      destruct (Qle_bool _ _); [| exact Hs].
      shifted_fields.
  - destruct (both_hands cg Closed_Fist); [| exact Hs].
    rewrite <- H8.
    destruct (average_initial_state M (pose_data_buffer s1)); shifted_fields.
  - destruct (both_hands cg Open_Palm); [| exact Hs]. shifted_fields.
Qed.

Lemma buffer_pose_shifted (c : Q) (s1 s2 : State) (res : PoseResult) :
  clock_shifted c s1 s2 ->
  clock_shifted c (buffer_pose s1 res) (buffer_pose s2 res).
Proof.
  intros (H1 & H2 & H3 & H4 & H5 & H6 & H7 & H8 & H9 & H10 & H11 & H12).
  unfold clock_shifted; simpl. rewrite H8. shifted_fields.
Qed.

Lemma debounce_hands_shifted (c : Q) (cg : gmap string string)
  (lms : Landmarks) (s1 s2 : State) (b : Baseline) :
  clock_shifted c s1 s2 ->
  clock_shifted c (fst (debounce_hands cg lms s1 b))
    (fst (debounce_hands cg lms s2 b))
  /\ snd (debounce_hands cg lms s1 b) = snd (debounce_hands cg lms s2 b).
Proof.
  intros (H1 & H2 & H3 & H4 & H5 & H6 & H7 & H8 & H9 & H10 & H11 & H12).
  assert (El : left_track s1 b = left_track s2 b).
  { unfold left_track. now rewrite H1, H3, H5. }
  assert (Er : right_track s1 b = right_track s2 b).
  { unfold right_track. now rewrite H2, H4, H6. }
  unfold debounce_hands. cbv zeta. cbn [fst snd]. rewrite El, Er.
  split; [| reflexivity]. shifted_fields.
Qed.

Lemma vjoy_update_shifted (c : Q) (d : VJoyDevice) (s1 s2 : State)
  (b : Baseline) (lms : Landmarks) :
  clock_shifted c s1 s2 ->
  vjoy_update M d s1 b lms = vjoy_update M d s2 b lms.
Proof.
  intros (H1 & H2 & _).
  unfold vjoy_update, left_vertical_travel, right_vertical_travel.
  now rewrite H1, H2.
Qed.

Lemma tick_shifted (c : Q) (w1 w2 w1' : World) (t1 t2 : TickInput) :
  clock_shifted c (engine w1) (engine w2) ->
  vjoy_device w1 = vjoy_device w2 ->
  same_perception c t1 t2 ->
  tick M w1 t1 = Some w1' ->
  exists w2' : World,
    tick M w2 t2 = Some w2'
    /\ clock_shifted c (engine w1') (engine w2')
    /\ vjoy_device w1' = vjoy_device w2'.
Proof.
  intros Hs Hd [Hp Hn] Htick.
  unfold perception in Hp. injection Hp as Hpose Hgest.
  assert (Hcg : current_gestures_of t1 = current_gestures_of t2).
  { unfold current_gestures_of. now rewrite Hgest. }
  destruct (latest_pose_result t1) as [res |] eqn:P1.
  - pose proof (calibration_step_shifted c (now t1) (now t2)
                  (current_gestures_of t1) _ _ Hn
                  (buffer_pose_shifted c _ _ res Hs)) as Hstep.
    destruct (tick_with_pose M w1 w1' t1 res P1 Htick)
      as [[Hc ->] | [Hc (b & Hb & ->)]].
    + exists {| engine := calibration_step M (now t2) (current_gestures_of t2)
                            (buffer_pose (engine w2) res);
                vjoy_device := vjoy_device w2 |}.
      rewrite <- Hcg. split; [| split; [exact Hstep | exact Hd]].
      unfold tick. rewrite <- Hpose, <- Hcg. cbv zeta.
      destruct Hstep as (_ & _ & _ & _ & _ & _ & _ & _ & H9 & _).
      now rewrite <- H9, Hc.
    + pose proof (debounce_hands_shifted c (current_gestures_of t1)
                    (pose_world_landmarks res) _ _ b Hstep) as [Hdeb Hb'].
      eexists. split; [| split].
      * unfold tick. rewrite <- Hpose, <- Hcg. cbv zeta.
        destruct Hstep as (_ & _ & _ & _ & _ & _ & _ & _ & H9 & H10 & _).
        rewrite <- H9, Hc, <- H10, Hb.
        rewrite (surjective_pairing (debounce_hands _ _ _ b)).
        reflexivity.
      * exact Hdeb.
      * cbn [vjoy_device]. rewrite <- Hb', <- Hd.
        apply (vjoy_update_shifted c). exact Hdeb.
  - rewrite tick_without_pose in Htick by exact P1. injection Htick as <-.
    exists w2. split; [| split; assumption].
    apply tick_without_pose. congruence.
Qed.

Lemma output_sequence_shifted (c : Q) (ticks1 ticks2 : list TickInput) :
  Forall2 (same_perception c) ticks1 ticks2 ->
  forall w1 w2 : World,
    consistent (engine w1) ->
    clock_shifted c (engine w1) (engine w2) ->
    vjoy_device w1 = vjoy_device w2 ->
    output_sequence M w1 ticks1 = output_sequence M w2 ticks2.
Proof.
  induction 1 as [| t1 t2 ticks1 ticks2 Ht _ IH]; intros w1 w2 Hc Hs Hd;
    [reflexivity |].
  simpl.
  destruct (tick_total M w1 t1 Hc) as [w1' Ht1]. rewrite Ht1.
  destruct (tick_shifted c w1 w2 w1' t1 t2 Hs Hd Ht Ht1)
    as (w2' & Ht2 & Hs' & Hd').
  rewrite Ht2, Hd, Hd'. f_equal.
  apply IH; [| exact Hs' | exact Hd'].
  eapply tick_consistent; eassumption.
Qed.

(** C10 (as the code has it).  From a fresh state, two runs that are fed
    the same pose samples and gesture labels, tick by tick, and whose clock
    readings agree tick by tick (or differ everywhere by one constant [c])
    make the same [set_axis] calls on every tick. *)
Theorem outputs_determined_with_clock (d : VJoyDevice) (c : Q)
  (ticks1 ticks2 : list TickInput) :
  Forall2 (same_perception c) ticks1 ticks2 ->
  output_sequence M (start d) ticks1 = output_sequence M (start d) ticks2.
Proof.
  intros H.
  apply (output_sequence_shifted c ticks1 ticks2 H);
    [apply fresh_state_consistent | | reflexivity].
  unfold start. shifted_fields.
Qed.

End Clock.

Lemma outputs_determined_with_clock_witness :
  output_sequence example_math (start example_device) calibrating_ticks
  = output_sequence example_math (start example_device) later_ticks.
Proof.
  apply (outputs_determined_with_clock example_math example_device 10).
  unfold calibrating_ticks, later_ticks.
  repeat (constructor; [split; [reflexivity | vm_compute; reflexivity] |]).
  constructor.
Defined.

(** The same poses and gestures with the clock read at a quicker pace: the
    half second never elapses, the engine never calibrates, and no axis is
    written, where the slower run writes the axes on its last two ticks. *)
Lemma outputs_depend_on_clock :
  map perception calibrating_ticks = map perception hurried_ticks
  /\ output_sequence example_math (start example_device) calibrating_ticks
     <> output_sequence example_math (start example_device) hurried_ticks.
Proof.
  split; [reflexivity |]. vm_compute. discriminate.
Qed.

(** ** The history of a run: the half second of arming *)

Section History.

Variable M : MathLib.








(** The calibration fields a tick with a pose leaves are those of the
    calibration step. *)
Lemma tick_calibration (w w' : World) (t : TickInput) (res : PoseResult) :
  latest_pose_result t = Some res ->
  tick M w t = Some w' ->
  let s := calibration_step M (now t) (current_gestures_of t)
             (buffer_pose (engine w) res) in
  calibration_status (engine w') = calibration_status s
  /\ arming_start_time (engine w') = arming_start_time s
  /\ is_calibrated (engine w') = is_calibrated s.
Proof.
  intros Hpose Htick. cbv zeta.
  destruct (tick_with_pose M w w' t res Hpose Htick)
    as [[_ ->] | [_ (b & _ & ->)]]; cbn [engine]; repeat split.
Qed.



End History.

Lemma with_offsets_same (b : Baseline) :
  with_offsets b (left_hand_head_y_offset b) (right_hand_head_y_offset b) = b.
Proof. destruct b; reflexivity. Qed.





(** ** The engine's hands follow their histories *)

Section HandHistory.

Variable M : MathLib.

Lemma hand_view_track (hd : Hand) (s : State) (b : Baseline) :
  initial_state s = Some b ->
  hand_view hd s
  = match hd with Left => left_track s b | Right => right_track s b end.
Proof.
  intros H. destruct hd; unfold hand_view, left_track, right_track;
    now rewrite H.
Qed.

Lemma hand_view_same (hd : Hand) (s1 s2 : State) :
  left_hand_status s1 = left_hand_status s2 ->
  right_hand_status s1 = right_hand_status s2 ->
  left_gesture_streak s1 = left_gesture_streak s2 ->
  right_gesture_streak s1 = right_gesture_streak s2 ->
  left_last_seen_gesture s1 = left_last_seen_gesture s2 ->
  right_last_seen_gesture s1 = right_last_seen_gesture s2 ->
  initial_state s1 = initial_state s2 ->
  hand_view hd s1 = hand_view hd s2.
Proof.
  intros H1 H2 H3 H4 H5 H6 H7. destruct hd; unfold hand_view;
    now rewrite ?H1, ?H2, ?H3, ?H4, ?H5, ?H6, ?H7.
Qed.

Lemma recalibrating_iff (s : State) (t : TickInput) :
  recalibrating s t = true <-> recalibrates s t.
Proof.
  unfold recalibrating, recalibrates.
  destruct (calibration_status s); split;
    try discriminate; try (intros [H _]; discriminate); auto.
  intros [_ H]. exact H.
Qed.

Lemma debounce_hands_view (hd : Hand) (cg : gmap string string)
  (lms : Landmarks) (s : State) (b : Baseline) :
  initial_state s = Some b ->
  hand_view hd (fst (debounce_hands cg lms s b))
  = debounce (cg !! hand_name hd)
      (lm_y (lms (wrist hd)) - lm_y (lms 0%nat)) (hand_view hd s).
Proof.
  intros Hb.
  pose proof (debounce_hands_tracks cg lms s b) as [Hl Hr].
  cbv zeta in Hl, Hr.
  rewrite (hand_view_track hd _ (snd (debounce_hands cg lms s b)))
    by reflexivity.
  rewrite (hand_view_track hd s b Hb).
  destruct hd; assumption.
Qed.

(** A tick takes each hand through the events it computes for it. *)
Lemma hand_view_tick (hd : Hand) (w w' : World) (t : TickInput) :
  tick M w t = Some w' ->
  hand_view hd (engine w')
  = hand_run (hand_view hd (engine w)) (hand_events M hd (engine w) t).
Proof.
  intros Htick. unfold hand_events.
  destruct (latest_pose_result t) as [res |] eqn:Hpose.
  - cbv zeta.
    set (s1 := calibration_step M (now t) (current_gestures_of t)
                 (buffer_pose (engine w) res)).
    pose proof (calibration_step_keeps M (now t) (current_gestures_of t)
                  (buffer_pose (engine w) res)) as Hkeep.
    cbv zeta in Hkeep. fold s1 in Hkeep.
    destruct Hkeep as (K1 & K2 & K3 & K4 & _ & Hkeep).
    cbn [buffer_pose left_gesture_streak right_gesture_streak
           left_last_seen_gesture right_last_seen_gesture] in K1, K2, K3, K4.
    destruct (recalibrating (engine w) t) eqn:Recal.
    + (* a baseline is installed, then the hands are debounced *)
      apply recalibrating_iff in Recal as [St Fists].
      assert (Hs1 : exists a : Baseline,
                 is_calibrated s1 = true /\ initial_state s1 = Some a
                 /\ left_hand_status s1 = TRACKING
                 /\ right_hand_status s1 = TRACKING).
      { unfold s1, calibration_step.
        cbn [buffer_pose calibration_status]. rewrite St, Fists.
        destruct (average_initial_state M _) as [a |] eqn:Avg.
        - exists a. repeat split.
        - apply average_initial_state_None in Avg. cbn in Avg.
          now apply deque_append_not_nil in Avg. }
      destruct Hs1 as (a & Cal & Init & Tl & Tr).
      rewrite Cal.
      destruct (tick_with_pose M w w' t res Hpose Htick)
        as [[Hc _] | [_ (b & Hb & ->)]]; [fold s1 in Hc; congruence |].
      fold s1 in Hb |- *. cbn [engine].
      rewrite (debounce_hands_view hd _ _ s1 b Hb).
      unfold hand_run. cbn [app fold_left hand_step]. f_equal.
      destruct hd; unfold hand_view; rewrite ?Tl, ?Tr, ?K1, ?K2, ?K3, ?K4;
        reflexivity.
    + (* no baseline is installed *)
      destruct Hkeep as (Kl & Kr & Kc & Ki).
      { intros H.
        assert (H' : recalibrates (engine w) t) by exact H.
        apply recalibrating_iff in H'. congruence. }
      cbn [buffer_pose left_hand_status right_hand_status is_calibrated
             initial_state] in Kl, Kr, Kc, Ki.
      assert (Hview : hand_view hd s1 = hand_view hd (engine w))
        by (apply hand_view_same; assumption).
      destruct (tick_with_pose M w w' t res Hpose Htick)
        as [[Hc ->] | [Hc (b & Hb & ->)]]; fold s1 in Hc |- *;
        rewrite Hc; cbn [engine app].
      * exact Hview.
      * fold s1 in Hb. rewrite (debounce_hands_view hd _ _ s1 b Hb).
        unfold hand_run. cbn [fold_left hand_step]. now rewrite Hview.
  - rewrite tick_without_pose in Htick by exact Hpose.
    injection Htick as <-. reflexivity.
Qed.

Lemma hand_view_run (hd : Hand) (ticks : list TickInput) :
  forall w w' : World,
    run M w ticks = Some w' ->
    hand_view hd (engine w')
    = hand_run (hand_view hd (engine w)) (hand_history M hd w ticks).
Proof.
  induction ticks as [| t ticks IH]; intros w w' Hrun; simpl in *.
  - injection Hrun as <-. reflexivity.
  - destruct (tick M w t) as [w1 |] eqn:Ht; [| discriminate].
    unfold hand_run. rewrite fold_left_app.
    rewrite (IH w1 w' Hrun), (hand_view_tick hd w w1 t Ht). reflexivity.
Qed.

Lemma hand_history_snoc (hd : Hand) (ticks : list TickInput) (t : TickInput) :
  forall w w1 w' : World,
    run M w ticks = Some w1 ->
    tick M w1 t = Some w' ->
    hand_history M hd w (ticks ++ [t])
    = hand_history M hd w ticks ++ hand_events M hd (engine w1) t.
Proof.
  induction ticks as [| a ticks IH]; intros w w1 w' Hrun Htick; simpl in *.
  - injection Hrun as ->. rewrite Htick. apply app_nil_r.
  - destruct (tick M w a) as [w2 |] eqn:Ha; [| discriminate].
    rewrite (IH w2 w1 w' Hrun Htick). now rewrite app_assoc.
Qed.

Lemma hand_view_start (hd : Hand) (d : VJoyDevice) :
  hand_view hd (engine (start d)) = initial_hand 0.
Proof. destruct hd; reflexivity. Qed.

(** C6 (as the code has it).  The streak update: the same label as last
    seen adds one to the streak, a different label sets the streak to 1 and
    becomes the last seen.  In every run from the start, a tick that changes
    a hand's status without installing a baseline has debounced that hand's
    label, and the hand's last three debounced labels are that same label
    (the open palm to release, the closed fist to re-track).  A hand whose
    debounced labels alternate stays tracking, its streak below the
    threshold. *)
Theorem transition_needs_three_identical :
  (forall (g : option string) (h : HandTrack),
      (g = last_seen_gesture h ->
       gesture_streak (observe g h) = (gesture_streak h + 1)%nat
       /\ last_seen_gesture (observe g h) = last_seen_gesture h)
      /\ (g <> last_seen_gesture h ->
          gesture_streak (observe g h) = 1%nat
          /\ last_seen_gesture (observe g h) = g))
  /\ (forall (hd : Hand) (d : VJoyDevice) (ticks : list TickInput)
        (t : TickInput) (w w' : World),
         run M (start d) ticks = Some w ->
         tick M w t = Some w' ->
         ~ recalibrates (engine w) t ->
         hand_status (hand_view hd (engine w'))
         <> hand_status (hand_view hd (engine w)) ->
         let g := current_gestures_of t !! hand_name hd in
         (exists older : list (option string),
             observations (hand_history M hd (start d) (ticks ++ [t]))
             = older ++ [g; g; g])
         /\ ((hand_status (hand_view hd (engine w)) = TRACKING
              /\ g = Some Open_Palm)
             \/ (hand_status (hand_view hd (engine w)) = RELEASED
                 /\ g = Some Closed_Fist)))
  /\ (forall (hd : Hand) (d : VJoyDevice) (ticks : list TickInput)
        (w : World),
         run M (start d) ticks = Some w ->
         alternating (observations (hand_history M hd (start d) ticks)) ->
         hand_status (hand_view hd (engine w)) = TRACKING
         /\ (gesture_streak (hand_view hd (engine w))
             < GESTURE_STREAK_REQUIRED)%nat).
Proof.
  split; [| split].
  - intros g h. split; intros E.
    + rewrite observe_same by exact E. auto.
    + rewrite observe_other by exact E. auto.
  - intros hd d ticks t w w' Hrun Htick Hnorecal Hchange g.
    pose proof (hand_view_run hd ticks (start d) w Hrun) as Hw.
    rewrite hand_view_start in Hw.
    pose proof (hand_view_tick hd w w' t Htick) as Hw'.
    rewrite (hand_history_snoc hd ticks t (start d) w w' Hrun Htick).
    assert (Recal : recalibrating (engine w) t = false).
    { destruct (recalibrating (engine w) t) eqn:E; [| reflexivity].
      apply recalibrating_iff in E. contradiction. }
    unfold hand_events in *.
    destruct (latest_pose_result t) as [res |];
      [| exfalso; apply Hchange; now rewrite Hw'].
    cbv zeta in *. rewrite Recal in *. cbn [app] in *.
    destruct (is_calibrated _);
      [| exfalso; apply Hchange; now rewrite Hw'].
    unfold hand_run in Hw'. cbn [fold_left hand_step] in Hw'.
    rewrite Hw', Hw in Hchange. rewrite Hw.
    exact (debounce_fires_after_three 0 _ _ _ Hchange).
  - intros hd d ticks w Hrun Halt.
    pose proof (hand_view_run hd ticks (start d) w Hrun) as Hw.
    rewrite hand_view_start in Hw. rewrite Hw.
    destruct (alternating_hand_run 0 _ Halt) as [H1 H2].
    split; [exact H1 |]. unfold GESTURE_STREAK_REQUIRED. lia.
Qed.

End HandHistory.

Lemma transition_needs_three_identical_witness :
  hand_status (hand_view Left (engine (example_world opening_ticks)))
  = TRACKING
  /\ hand_status
       (hand_view Left
          (engine (example_world (opening_ticks ++ [release_tick]))))
     = RELEASED
  /\ exists older : list (option string),
       observations
         (hand_history example_math Left (start example_device)
            (opening_ticks ++ [release_tick]))
       = older ++ [Some Open_Palm; Some Open_Palm; Some Open_Palm].
Proof.
  assert (Hrun : run example_math (start example_device) opening_ticks
                 = Some (example_world opening_ticks))
    by (vm_compute; reflexivity).
  assert (Htick : tick example_math (example_world opening_ticks) release_tick
                  = Some (example_world (opening_ticks ++ [release_tick])))
    by (vm_compute; reflexivity).
  assert (Hno : ~ recalibrates (engine (example_world opening_ticks))
                    release_tick)
    by (intros [H _]; vm_compute in H; discriminate).
  assert (Hch : hand_status
                  (hand_view Left
                     (engine (example_world (opening_ticks ++ [release_tick]))))
                <> hand_status
                     (hand_view Left (engine (example_world opening_ticks))))
    by (vm_compute; discriminate).
  destruct (proj1 (proj2 (transition_needs_three_identical example_math))
              Left example_device opening_ticks release_tick
              (example_world opening_ticks)
              (example_world (opening_ticks ++ [release_tick]))
              Hrun Htick Hno Hch) as [Hthree _].
  split; [reflexivity |]. split; [reflexivity | exact Hthree].
Defined.

(** A re-calibration takes a released hand back to tracking on its first
    closed fist: the left hand's last three labels are two open palms and
    one closed fist. *)
Lemma recalibration_retracks_at_once :
  run example_math (start example_device)
    (rearming_ticks ++ [recalibration_tick])
  = Some (example_world (rearming_ticks ++ [recalibration_tick]))
  /\ left_hand_status (engine (example_world rearming_ticks)) = RELEASED
  /\ left_hand_status
       (engine (example_world (rearming_ticks ++ [recalibration_tick])))
     = TRACKING
  /\ observations
       (hand_history example_math Left (start example_device)
          (rearming_ticks ++ [recalibration_tick]))
     = [ Some Closed_Fist; Some Closed_Fist; Some Open_Palm; Some Open_Palm;
         Some Open_Palm; Some Open_Palm; Some Open_Palm; Some Closed_Fist ].
Proof.
  split; [vm_compute; reflexivity |].
  split; [reflexivity |]. split; [reflexivity |].
  vm_compute. reflexivity.
Qed.

(** ** Further properties of the code *)

(** *** The feedback colour *)

Lemma py_int_bounds (x : Q) (lo hi : Z) :
  (0 <= lo)%Z -> (inject_Z lo <= x <= inject_Z hi)%Q ->
  (lo <= py_int x <= hi)%Z.
Proof.
  intros Hlo [H1 H2].
  assert (Hx : (0 <= x)%Q).
  { apply Qle_trans with (inject_Z lo); [| exact H1].
    change 0%Q with (inject_Z 0). now rewrite <- Zle_Qle. }
  rewrite py_int_nonneg_floor by exact Hx. split.
  - rewrite <- (Qfloor_Z lo). now apply Qfloor_resp_le.
  - rewrite <- (Qfloor_Z hi). now apply Qfloor_resp_le.
Qed.

Lemma py_min_le_r (a b : Q) : (py_min a b <= b)%Q.
Proof.
  unfold py_min. destruct (Qle_bool a b) eqn:E; [| lra].
  now apply Qle_bool_iff.
Qed.

Lemma py_min_l (a b : Q) : (a <= b)%Q -> py_min a b = a.
Proof.
  intros H. unfold py_min. apply Qle_bool_iff in H. now rewrite H.
Qed.

Lemma py_min_r (a b : Q) : (b < a)%Q -> py_min a b = b.
Proof.
  intros H. unfold py_min. destruct (Qle_bool a b) eqn:E; [| reflexivity].
  apply Qle_bool_iff in E. lra.
Qed.

Lemma py_min_nonneg (a b : Q) : (0 <= a)%Q -> (0 <= b)%Q -> (0 <= py_min a b)%Q.
Proof. intros Ha Hb. unfold py_min. destruct (Qle_bool a b); assumption. Qed.

Lemma Qfloor_sum_255 (r : Q) :
  (254 <= Qfloor (255 * (1 - r)) + Qfloor (255 * r) <= 255)%Z.
Proof.
  pose proof (Qfloor_le (255 * (1 - r))) as A1.
  pose proof (Qlt_floor (255 * (1 - r))) as A2.
  pose proof (Qfloor_le (255 * r)) as B1.
  pose proof (Qlt_floor (255 * r)) as B2.
  set (a := Qfloor (255 * (1 - r))) in *.
  set (b := Qfloor (255 * r)) in *.
  rewrite inject_Z_plus in A2, B2.
  change (inject_Z 1) with 1%Q in A2, B2.
  assert (H1 : (inject_Z (a + b) <= 255)%Q) by (rewrite inject_Z_plus; lra).
  assert (H2 : (253 < inject_Z (a + b))%Q) by (rewrite inject_Z_plus; lra).
  change 255%Q with (inject_Z 255) in H1.
  change 253%Q with (inject_Z 253) in H2.
  rewrite <- Zle_Qle in H1. rewrite <- Zlt_Qlt in H2. lia.
Qed.

(** X1.  For a distance that is not negative and a positive maximum, the
    colour is (0, green, red) with both channels in 0..255 and
    green + red equal to 254 or 255. *)
Theorem get_color_channels (distance max_distance : Q) :
  (0 <= distance)%Q -> (0 < max_distance)%Q ->
  exists green red : Z,
    get_color_for_distance distance max_distance = Some (0%Z, green, red)
    /\ (0 <= green <= 255)%Z /\ (0 <= red <= 255)%Z
    /\ (254 <= green + red <= 255)%Z.
Proof.
  intros Hd Hm. unfold get_color_for_distance. cbv zeta.
  destruct (Qeq_bool max_distance 0) eqn:E;
    [apply Qeq_bool_iff in E; lra |].
  set (r := (py_min distance max_distance / max_distance)%Q).
  assert (Hr : (0 <= r <= 1)%Q).
  { unfold r. split.
    - apply Qle_shift_div_l; [exact Hm |].
      rewrite Qmult_0_l. apply py_min_nonneg; lra.
    - apply Qle_shift_div_r; [exact Hm |].
      rewrite Qmult_1_l. apply py_min_le_r. }
  do 2 eexists. split; [reflexivity |].
  assert (Hg : (0 <= 255 * (1 - r))%Q) by nra.
  assert (Hrd : (0 <= 255 * r)%Q) by nra.
  split; [apply py_int_bounds; [lia |]; split;
            [exact Hg | change (inject_Z 255) with 255%Q; nra] |].
  split; [apply py_int_bounds; [lia |]; split;
            [exact Hrd | change (inject_Z 255) with 255%Q; nra] |].
  rewrite !py_int_nonneg_floor by assumption.
  apply Qfloor_sum_255.
Qed.

Lemma get_color_channels_witness :
  exists green red : Z,
    get_color_for_distance (1 # 8) (1 # 2) = Some (0%Z, green, red)
    /\ (254 <= green + red <= 255)%Z.
Proof.
  destruct (get_color_channels (1 # 8) (1 # 2)) as (g & r & H1 & _ & _ & H4);
    [discriminate | reflexivity |].
  exists g, r. split; assumption.
Defined.

(** X2.  At the maximum distance and beyond the colour is pure red, at
    distance 0 it is pure green, and a maximum of 0 raises. *)
Theorem get_color_saturates (distance max_distance : Q) :
  (0 < max_distance)%Q ->
  ((max_distance <= distance)%Q ->
   get_color_for_distance distance max_distance = Some (0, 0, 255)%Z)
  /\ get_color_for_distance 0 max_distance = Some (0, 255, 0)%Z
  /\ get_color_for_distance distance 0 = None.
Proof.
  intros Hm. split; [| split].
  - intros Hd. unfold get_color_for_distance. cbv zeta.
    destruct (Qeq_bool max_distance 0) eqn:E;
      [apply Qeq_bool_iff in E; lra |].
    assert (Hr : (py_min distance max_distance / max_distance == 1)%Q).
    { assert (Hmin : (py_min distance max_distance == max_distance)%Q).
      { unfold py_min. destruct (Qle_bool distance max_distance) eqn:L;
          [apply Qle_bool_iff in L; lra | reflexivity]. }
      rewrite Hmin. field. lra. }
    rewrite (py_int_Qeq _ 0) by (rewrite Hr; ring).
    rewrite (py_int_Qeq (255 * _) 255) by (rewrite Hr; ring).
    reflexivity.
  - unfold get_color_for_distance. cbv zeta.
    destruct (Qeq_bool max_distance 0) eqn:E;
      [apply Qeq_bool_iff in E; lra |].
    assert (Hr : (py_min 0 max_distance / max_distance == 0)%Q).
    { rewrite py_min_l by lra. field. lra. }
    rewrite (py_int_Qeq _ 255) by (rewrite Hr; ring).
    rewrite (py_int_Qeq (255 * _) 0) by (rewrite Hr; ring).
    reflexivity.
  - unfold get_color_for_distance. reflexivity.
Qed.

Lemma get_color_saturates_witness :
  get_color_for_distance 2 1 = Some (0, 0, 255)%Z.
Proof.
  apply (proj1 (get_color_saturates 2 1 eq_refl)). discriminate.
Defined.

(** *** The axis mapping on every input *)

Lemma py_int_opp (x : Q) : py_int (- x) = (- py_int x)%Z.
Proof.
  unfold py_int. simpl. apply Z.quot_opp_l. discriminate.
Qed.

Lemma py_int_nonneg (x : Q) : (0 <= x)%Q -> (0 <= py_int x)%Z.
Proof.
  intros H. rewrite py_int_nonneg_floor by exact H.
  change 0%Z with (Qfloor 0). now apply Qfloor_resp_le.
Qed.

Lemma py_int_le (x y : Q) : (x <= y)%Q -> (py_int x <= py_int y)%Z.
Proof.
  intros H.
  destruct (Qlt_le_dec x 0) as [Hx | Hx]; destruct (Qlt_le_dec y 0) as [Hy | Hy].
  - assert (E : (py_int (- y) <= py_int (- x))%Z).
    { rewrite !py_int_nonneg_floor by lra. apply Qfloor_resp_le. lra. }
    rewrite !py_int_opp in E. lia.
  - assert (E : (0 <= py_int (- x))%Z) by (apply py_int_nonneg; lra).
    rewrite py_int_opp in E.
    pose proof (py_int_nonneg y Hy). lia.
  - lra.
  - rewrite !py_int_nonneg_floor by assumption. now apply Qfloor_resp_le.
Qed.

Lemma map_to_vjoy_axis_le (u v : Q) :
  (u <= v)%Q -> (map_to_vjoy_axis u <= map_to_vjoy_axis v)%Z.
Proof.
  intros H. unfold map_to_vjoy_axis. cbv zeta.
  assert (E : (py_int (inject_Z VJOY_CENTER + u * inject_Z (VJOY_CENTER - 1))
               <= py_int (inject_Z VJOY_CENTER
                          + v * inject_Z (VJOY_CENTER - 1)))%Z).
  { apply py_int_le.
    change (inject_Z (VJOY_CENTER - 1)) with 16383%Q. lra. }
  lia.
Qed.

(** X3.  The axis mapping never leaves [1, 32768] whatever its input, it
    is monotone, and it clamps: inputs of -1 and below give 1, inputs of
    16384/16383 and above give 32768. *)
Theorem map_to_vjoy_axis_clamps (u v : Q) :
  (u <= v)%Q ->
  (map_to_vjoy_axis u <= map_to_vjoy_axis v)%Z
  /\ (1 <= map_to_vjoy_axis u <= VJOY_MAX_RANGE)%Z
  /\ ((v <= -1)%Q -> map_to_vjoy_axis u = 1%Z)
  /\ ((16384 # 16383 <= u)%Q -> map_to_vjoy_axis v = VJOY_MAX_RANGE).
Proof.
  intros H.
  assert (Hrange : forall x : Q, (1 <= map_to_vjoy_axis x <= 32768)%Z).
  { intros x. unfold map_to_vjoy_axis. cbv zeta.
    change VJOY_MAX_RANGE with 32768%Z. lia. }
  split; [now apply map_to_vjoy_axis_le |].
  split; [apply Hrange |].
  split.
  - intros Hv.
    assert (E : (map_to_vjoy_axis u <= map_to_vjoy_axis (-1))%Z)
      by (apply map_to_vjoy_axis_le; lra).
    change (map_to_vjoy_axis (-1)) with 1%Z in E.
    pose proof (Hrange u). lia.
  - intros Hu.
    assert (E : (map_to_vjoy_axis (16384 # 16383) <= map_to_vjoy_axis v)%Z)
      by (apply map_to_vjoy_axis_le; lra).
    change (map_to_vjoy_axis (16384 # 16383)) with 32768%Z in E.
    pose proof (Hrange v). change VJOY_MAX_RANGE with 32768%Z. lia.
Qed.

Lemma map_to_vjoy_axis_clamps_witness :
  (map_to_vjoy_axis (-3) <= map_to_vjoy_axis (-2))%Z
  /\ map_to_vjoy_axis (-3) = 1%Z.
Proof.
  destruct (map_to_vjoy_axis_clamps (-3) (-2)) as (H1 & _ & H3 & _);
    [discriminate |].
  split; [exact H1 | apply H3; discriminate].
Defined.

(** *** The torso angle *)

(** X4.  With a positive [pi] and an [atan2] whose values lie in
    [-pi, pi], the torso angle lies in (-pi, pi]: an angle above [pi] is
    brought back by a full turn. *)
Theorem calculate_torso_angle_range (M : MathLib) (landmarks : Landmarks) :
  (0 < pi M)%Q ->
  (forall y x : Q, (- pi M <= atan2 M y x <= pi M)%Q) ->
  (- pi M < calculate_torso_angle M landmarks <= pi M)%Q.
Proof.
  intros Hpi Hatan. unfold calculate_torso_angle. cbv zeta.
  match goal with
  | |- context [atan2 M ?y ?x] =>
      pose proof (Hatan y x) as [Hlo Hhi]; set (a := atan2 M y x) in *
  end.
  destruct (Qle_bool (a + pi M / 2) (pi M)) eqn:E; cbn [negb].
  - apply Qle_bool_iff in E. split; [| exact E].
    assert (pi M / 2 == pi M * (1 # 2))%Q by field. lra.
  - assert (Hgt : (pi M < a + pi M / 2)%Q).
    { destruct (Qlt_le_dec (pi M) (a + pi M / 2)) as [L | L]; [exact L |].
      apply Qle_bool_iff in L. congruence. }
    assert (pi M / 2 == pi M * (1 # 2))%Q by field. split; lra.
Qed.

Lemma calculate_torso_angle_range_witness :
  (- pi example_math
   < calculate_torso_angle example_math (example_landmarks 0 0)
   <= pi example_math)%Q.
Proof.
  apply calculate_torso_angle_range; [reflexivity |].
  intros y x. split; apply Qle_bool_iff; reflexivity.
Defined.

(** *** Baseline averaging *)











(** *** The pose buffer over a run *)

Section RunFacts.

Variable M : MathLib.

Lemma tl_skipn (k : nat) (l : list PoseResult) :
  tl (skipn k l) = skipn (S k) l.
Proof.
  revert l. induction k as [| k IH]; intros [| x l]; cbn [skipn tl];
    try reflexivity.
  apply IH.
Qed.

Lemma deque_append_last_n (l : list PoseResult) (res : PoseResult) :
  deque_append (last_n BUFFER_MAXLEN l) res = last_n BUFFER_MAXLEN (l ++ [res]).
Proof.
  unfold deque_append, last_n, BUFFER_MAXLEN.
  rewrite length_skipn, length_app. simpl length.
  destruct (le_lt_dec 5 (length l)) as [Hge | Hlt].
  - replace (length l - (length l - 5))%nat with 5%nat by lia.
    cbn [Nat.leb]. rewrite tl_skipn.
    replace (length l + 1 - 5)%nat with (S (length l - 5)) by lia.
    rewrite skipn_app.
    replace (S (length l - 5) - length l)%nat with 0%nat by lia.
    reflexivity.
  - replace (length l - 5)%nat with 0%nat by lia.
    replace (length l + 1 - 5)%nat with 0%nat by lia.
    cbn [skipn]. rewrite Nat.sub_0_r.
    destruct (5 <=? length l)%nat eqn:E; [apply Nat.leb_le in E; lia |].
    reflexivity.
Qed.

Lemma poses_of_snoc (ticks : list TickInput) (t : TickInput) :
  poses_of (ticks ++ [t])
  = poses_of ticks
    ++ match latest_pose_result t with Some res => [res] | None => [] end.
Proof.
  induction ticks as [| a ticks IH]; simpl.
  - destruct (latest_pose_result t); reflexivity.
  - rewrite IH. destruct (latest_pose_result a); reflexivity.
Qed.

Lemma tick_buffer (w w' : World) (t : TickInput) :
  tick M w t = Some w' ->
  pose_data_buffer (engine w')
  = match latest_pose_result t with
    | Some res => deque_append (pose_data_buffer (engine w)) res
    | None => pose_data_buffer (engine w)
    end.
Proof.
  intros Htick. destruct (latest_pose_result t) as [res |] eqn:Hpose.
  - pose proof (calibration_step_keeps M (now t) (current_gestures_of t)
                  (buffer_pose (engine w) res)) as Hkeep.
    cbv zeta in Hkeep. destruct Hkeep as (_ & _ & _ & _ & Hbuf & _).
    destruct (tick_with_pose M w w' t res Hpose Htick)
      as [[_ ->] | [_ (b & _ & ->)]]; cbn [engine]; exact Hbuf.
  - rewrite tick_without_pose in Htick by exact Hpose. congruence.
Qed.

(** X7.  After any run from the start the buffer holds the pose results of
    the last five ticks that carried a pose, oldest first (all of them
    while there are fewer than five), whatever the calibration status. *)
Theorem buffer_is_last_five_poses (d : VJoyDevice) (ticks : list TickInput)
  (w : World) :
  run M (start d) ticks = Some w ->
  pose_data_buffer (engine w) = last_n BUFFER_MAXLEN (poses_of ticks)
  /\ (length (pose_data_buffer (engine w)) <= BUFFER_MAXLEN)%nat.
Proof.
  intros Hrun.
  assert (Heq : pose_data_buffer (engine w)
                = last_n BUFFER_MAXLEN (poses_of ticks)).
  { revert w Hrun. induction ticks as [| t ticks IH] using rev_ind;
      intros w Hrun.
    - injection Hrun as <-. reflexivity.
    - rewrite run_snoc in Hrun.
      destruct (run M (start d) ticks) as [w1 |] eqn:Hrun1; [| discriminate].
      rewrite (tick_buffer w1 w t Hrun), poses_of_snoc, (IH w1 eq_refl).
      destruct (latest_pose_result t) as [res |].
      + apply deque_append_last_n.
      + now rewrite app_nil_r. }
  split; [exact Heq |].
  rewrite Heq. unfold last_n, BUFFER_MAXLEN. rewrite length_skipn. lia.
Qed.

(** *** The calibration status over a run *)

Lemma calibration_step_stays_calibrated (now : Q) (cg : gmap string string)
  (s : State) :
  is_calibrated s = true -> is_calibrated (calibration_step M now cg s) = true.
Proof.
  intros H. unfold calibration_step.
  destruct (calibration_status s).
  - destruct (both_hands cg Open_Palm); exact H.
  - destruct (negb (both_hands cg Open_Palm)); [exact H |].
    destruct (Qle_bool _ _); exact H.
  - destruct (both_hands cg Closed_Fist); [| exact H].
    destruct (average_initial_state M _); [reflexivity | exact H].
  - destruct (both_hands cg Open_Palm); exact H.
Qed.

Lemma tick_stays_calibrated (w w' : World) (t : TickInput) :
  is_calibrated (engine w) = true ->
  tick M w t = Some w' -> is_calibrated (engine w') = true.
Proof.
  intros Hcal Htick. destruct (latest_pose_result t) as [res |] eqn:Hpose.
  - destruct (tick_calibration M w w' t res Hpose Htick) as (_ & _ & ->).
    now apply calibration_step_stays_calibrated.
  - rewrite tick_without_pose in Htick by exact Hpose. congruence.
Qed.

(** X8.  Once a run from the start has calibrated, it stays calibrated and
    keeps a baseline through every later tick: re-arming, a broken arming
    and re-calibration never clear [is_calibrated] or [initial_state]. *)
Theorem calibration_is_never_lost (d : VJoyDevice)
  (before after : list TickInput) (w w' : World) :
  run M (start d) before = Some w ->
  run M w after = Some w' ->
  is_calibrated (engine w) = true ->
  is_calibrated (engine w') = true /\ initial_state (engine w') <> None.
Proof.
  intros Hrun1 Hrun2 Hcal.
  pose proof (run_consistent M (start d) w before fresh_state_consistent Hrun1)
    as Hc.
  assert (Hcal' : is_calibrated (engine w') = true).
  { clear Hrun1 Hc. revert w Hrun2 Hcal.
    induction after as [| t after IH]; intros w Hrun2 Hcal; simpl in Hrun2.
    - congruence.
    - destruct (tick M w t) as [w1 |] eqn:Ht; [| discriminate].
      apply (IH w1 Hrun2). eapply tick_stays_calibrated; eassumption. }
  split; [exact Hcal' |].
  destruct (run_consistent M w w' after Hc Hrun2) as [Hiff _].
  now apply Hiff.
Qed.

(** X10.  A tick changes the calibration status only along the edges
    NOT_CALIBRATED -> ARMING, ARMING -> NOT_CALIBRATED / CALIBRATED /
    READY_TO_SET, READY_TO_SET -> CALIBRATED and CALIBRATED -> ARMING.  The
    failure edge READY_TO_SET -> NOT_CALIBRATED is never taken, the buffer
    having just received the tick's pose; a broken arming goes to
    CALIBRATED exactly on a calibrated engine. *)
Theorem tick_follows_calibration_edges (w w' : World) (t : TickInput) :
  tick M w t = Some w' ->
  (calibration_status (engine w') = calibration_status (engine w)
   \/ calibration_edge (calibration_status (engine w))
        (calibration_status (engine w')))
  /\ (calibration_status (engine w) = ARMING ->
      calibration_status (engine w') = CALIBRATED ->
      is_calibrated (engine w) = true)
  /\ (calibration_status (engine w) = ARMING ->
      calibration_status (engine w') = NOT_CALIBRATED ->
      is_calibrated (engine w) = false).
Proof.
  intros Htick. destruct (latest_pose_result t) as [res |] eqn:Hpose.
  - destruct (tick_calibration M w w' t res Hpose Htick) as (-> & _ & _).
    unfold calibration_step. cbn [buffer_pose calibration_status is_calibrated].
    destruct (calibration_status (engine w)) eqn:St.
    + destruct (both_hands _ Open_Palm);
        cbn [set_calibration buffer_pose calibration_status]; rewrite ?St;
        (split; [simpl; auto | split; discriminate]).
    + destruct (negb (both_hands _ Open_Palm)).
      * cbn [set_calibration calibration_status].
        destruct (is_calibrated (engine w));
          (split; [simpl; auto | split; congruence]).
      * destruct (Qle_bool _ _);
          cbn [set_calibration buffer_pose calibration_status]; rewrite ?St;
          (split; [simpl; auto | split; discriminate]).
    + destruct (both_hands _ Closed_Fist);
        [| cbn [buffer_pose calibration_status]; rewrite St;
           split; [auto | split; discriminate]].
      destruct (average_initial_state M _) eqn:Avg.
      * cbn [calibration_status]. split; [simpl; auto | split; discriminate].
      * apply average_initial_state_None in Avg. cbn in Avg.
        now apply deque_append_not_nil in Avg.
    + destruct (both_hands _ Open_Palm);
        cbn [set_calibration buffer_pose calibration_status]; rewrite ?St;
        (split; [simpl; auto | split; discriminate]).
  - rewrite tick_without_pose in Htick by exact Hpose.
    injection Htick as <-.
    split; [auto | split; congruence].
Qed.

End RunFacts.

Lemma buffer_is_last_five_poses_witness :
  pose_data_buffer (engine (example_world released_ticks))
  = last_n BUFFER_MAXLEN (poses_of released_ticks).
Proof.
  assert (Hrun : run example_math (start example_device) released_ticks
                 = Some (example_world released_ticks))
    by (vm_compute; reflexivity).
  exact (proj1 (buffer_is_last_five_poses example_math example_device
                  released_ticks _ Hrun)).
Defined.

Lemma calibration_is_never_lost_witness :
  is_calibrated
    (engine (example_world (calibrating_ticks
                            ++ [example_tick 2 0 0 (Some (both Open_Palm));
                                example_tick (9 # 4) 0 0 None]))) = true.
Proof.
  assert (H1 : run example_math (start example_device) calibrating_ticks
               = Some (example_world calibrating_ticks))
    by (vm_compute; reflexivity).
  assert (H2 : run example_math (example_world calibrating_ticks)
                 [example_tick 2 0 0 (Some (both Open_Palm));
                  example_tick (9 # 4) 0 0 None]
               = Some (example_world
                         (calibrating_ticks
                          ++ [example_tick 2 0 0 (Some (both Open_Palm));
                              example_tick (9 # 4) 0 0 None])))
    by (vm_compute; reflexivity).
  exact (proj1 (calibration_is_never_lost example_math example_device _ _ _ _
                  H1 H2 eq_refl)).
Defined.

Lemma tick_follows_calibration_edges_witness :
  calibration_edge
    (calibration_status (engine (example_world calibrating_ticks)))
    (calibration_status
       (engine (example_world
                  (calibrating_ticks
                   ++ [example_tick 2 0 0 (Some (both Open_Palm))])))).
Proof.
  assert (Htick : tick example_math (example_world calibrating_ticks)
                    (example_tick 2 0 0 (Some (both Open_Palm)))
                  = Some (example_world
                            (calibrating_ticks
                             ++ [example_tick 2 0 0 (Some (both Open_Palm))])))
    by (vm_compute; reflexivity).
  destruct (proj1 (tick_follows_calibration_edges example_math _ _ _ Htick))
    as [H | H];
    [vm_compute in H; discriminate | exact H].
Defined.

(** *** The debounce: what changes a hand's status and what does not *)

Lemma observe_streak_bounds (g : option string) (h : HandTrack) :
  (1 <= gesture_streak (observe g h) <= gesture_streak h + 1)%nat.
Proof. unfold observe. case_bool_decide; simpl; lia. Qed.

Lemma confirm_other_label (fresh : Q) (h : HandTrack) :
  last_seen_gesture h <> Some (trigger (hand_status h)) ->
  confirm fresh h = h.
Proof.
  intros H. unfold confirm.
  destruct (GESTURE_STREAK_REQUIRED <=? gesture_streak h)%nat; [| reflexivity].
  destruct (hand_status h); simpl in H;
    rewrite bool_decide_eq_false_2 by exact H; reflexivity.
Qed.

Lemma confirm_flips (fresh : Q) (h : HandTrack) :
  last_seen_gesture h = Some (trigger (hand_status h)) ->
  (GESTURE_STREAK_REQUIRED <= gesture_streak h)%nat ->
  hand_status (confirm fresh h) = flipped (hand_status h)
  /\ gesture_streak (confirm fresh h) = 0%nat.
Proof.
  intros Hseen Hthr. unfold confirm.
  apply Nat.leb_le in Hthr. rewrite Hthr.
  destruct (hand_status h); simpl in Hseen;
    rewrite bool_decide_eq_true_2 by exact Hseen; auto.
Qed.

(** X13.  A label that is not the trigger of the hand's status (the open
    palm for a tracking hand, the closed fist for a released one) leaves
    the status and the reference offset alone, whatever the streak; it is
    only recorded as last seen. *)
Theorem other_labels_keep_status (g : option string) (fresh : Q)
  (h : HandTrack) :
  g <> Some (trigger (hand_status h)) ->
  hand_status (debounce g fresh h) = hand_status h
  /\ hand_head_y_offset (debounce g fresh h) = hand_head_y_offset h
  /\ last_seen_gesture (debounce g fresh h) = g.
Proof.
  intros Hg. unfold debounce.
  destruct (observe_status g h) as [Hst Hoff].
  rewrite confirm_other_label
    by (rewrite observe_last_seen, Hst; exact Hg).
  rewrite observe_last_seen. auto.
Qed.

Lemma other_labels_keep_status_witness :
  hand_status
    (debounce (Some "Victory") 1
       {| hand_status := RELEASED; gesture_streak := 7;
          last_seen_gesture := Some "Victory"; hand_head_y_offset := 0 |})
  = RELEASED.
Proof.
  refine (proj1 (other_labels_keep_status (Some "Victory") 1
                   {| hand_status := RELEASED; gesture_streak := 7;
                      last_seen_gesture := Some "Victory";
                      hand_head_y_offset := 0 |} _)).
  discriminate.
Defined.

(** One more observation of the trigger: the status flips, or the streak
    has grown and is still short of the threshold. *)
Lemma trigger_step (st : HandState) (fresh : Q) (h : HandTrack) (k : nat) :
  hand_status h = st ->
  (last_seen_gesture h = Some (trigger st) /\ k <= gesture_streak h)%nat
  \/ k = 0%nat ->
  let h' := debounce (Some (trigger st)) fresh h in
  hand_status h' = flipped st
  \/ (hand_status h' = st
      /\ last_seen_gesture h' = Some (trigger st)
      /\ (k + 1 <= gesture_streak h' < GESTURE_STREAK_REQUIRED)%nat).
Proof.
  intros Hst Hk h'. unfold h', debounce.
  set (o := observe (Some (trigger st)) h).
  assert (Ho : hand_status o = st /\ last_seen_gesture o = Some (trigger st)
               /\ (k + 1 <= gesture_streak o)%nat).
  { unfold o. split; [rewrite (proj1 (observe_status _ h)); exact Hst |].
    split; [apply observe_last_seen |].
    destruct Hk as [[Hseen Hle] | ->].
    - rewrite observe_same by congruence. simpl. lia.
    - apply observe_streak_bounds. }
  destruct Ho as (Ho1 & Ho2 & Ho3).
  destruct (le_lt_dec GESTURE_STREAK_REQUIRED (gesture_streak o)) as [Hge | Hlt].
  - left. rewrite <- Ho1. apply confirm_flips; [congruence | exact Hge].
  - right. rewrite confirm_below_threshold by exact Hlt. auto.
Qed.

Lemma flipped_stays (st : HandState) (fresh : Q) (h : HandTrack) :
  hand_status h = flipped st ->
  hand_status (debounce (Some (trigger st)) fresh h) = flipped st.
Proof.
  intros Hst.
  assert (Hg : Some (trigger st) <> Some (trigger (hand_status h)))
    by (rewrite Hst; destruct st; discriminate).
  destruct (observe_status (Some (trigger st)) h) as [Hobs _].
  unfold debounce.
  rewrite confirm_other_label
    by (rewrite observe_last_seen, Hobs; exact Hg).
  now rewrite Hobs.
Qed.

(** X12.  Three consecutive observations of the trigger always flip the
    hand: whatever the streak and the last seen label were, a released hand
    that is shown the closed fist three times is tracking afterwards, and a
    tracking hand that is shown the open palm three times is released. *)
Theorem three_triggers_flip (h : HandTrack) (f1 f2 f3 : Q) :
  hand_status
    (debounce (Some (trigger (hand_status h))) f3
       (debounce (Some (trigger (hand_status h))) f2
          (debounce (Some (trigger (hand_status h))) f1 h)))
  = flipped (hand_status h).
Proof.
  set (st := hand_status h).
  set (g := Some (trigger st)).
  destruct (trigger_step st f1 h 0 eq_refl (or_intror eq_refl))
    as [H1 | (H1 & S1 & L1)]; fold g in H1 |- *.
  { apply flipped_stays, flipped_stays, H1. }
  destruct (trigger_step st f2 (debounce g f1 h) 1 H1
              (or_introl (conj S1 (proj1 L1))))
    as [H2 | (H2 & S2 & L2)]; fold g in H2 |- *.
  { apply flipped_stays, H2. }
  destruct (trigger_step st f3 (debounce g f2 (debounce g f1 h)) 2 H2
              (or_introl (conj S2 (proj1 L2))))
    as [H3 | (_ & _ & L3)].
  - exact H3.
  - unfold GESTURE_STREAK_REQUIRED in L3. lia.
Qed.

(** X19.  After a debounce that has changed the hand's status the streak
    is 0, so the next two observations, whatever their labels, leave the
    status as it is: a change back needs a new streak of three. *)
Theorem fresh_streak_after_change (g g1 g2 : option string)
  (f f1 f2 : Q) (h : HandTrack) :
  hand_status (debounce g f h) <> hand_status h ->
  gesture_streak (debounce g f h) = 0%nat
  /\ hand_status (debounce g1 f1 (debounce g f h))
     = hand_status (debounce g f h)
  /\ hand_status (debounce g2 f2 (debounce g1 f1 (debounce g f h)))
     = hand_status (debounce g f h).
Proof.
  intros Hch.
  assert (H0 : gesture_streak (debounce g f h) = 0%nat).
  { unfold debounce in *.
    assert (Hch' : hand_status (confirm f (observe g h))
                   <> hand_status (observe g h))
      by (now rewrite (proj1 (observe_status g h))).
    now apply confirm_fires in Hch' as (_ & Hz & _). }
  set (h0 := debounce g f h) in *.
  assert (E1 : debounce g1 f1 h0 = observe g1 h0).
  { unfold debounce. apply confirm_below_threshold.
    pose proof (observe_streak_bounds g1 h0).
    unfold GESTURE_STREAK_REQUIRED. lia. }
  assert (E2 : debounce g2 f2 (observe g1 h0) = observe g2 (observe g1 h0)).
  { unfold debounce. apply confirm_below_threshold.
    pose proof (observe_streak_bounds g1 h0).
    pose proof (observe_streak_bounds g2 (observe g1 h0)).
    unfold GESTURE_STREAK_REQUIRED. lia. }
  split; [exact H0 |].
  rewrite E1, E2.
  rewrite (proj1 (observe_status g2 _)), (proj1 (observe_status g1 _)). auto.
Qed.

Lemma fresh_streak_after_change_witness :
  gesture_streak
    (debounce (Some Open_Palm) 0
       {| hand_status := TRACKING; gesture_streak := 2;
          last_seen_gesture := Some Open_Palm; hand_head_y_offset := 0 |})
  = 0%nat.
Proof.
  refine (proj1 (fresh_streak_after_change (Some Open_Palm) None None 0 0 0
                   {| hand_status := TRACKING; gesture_streak := 2;
                      last_seen_gesture := Some Open_Palm;
                      hand_head_y_offset := 0 |} _)).
  vm_compute. discriminate.
Defined.

(** *** The gesture dictionary *)

Lemma fold_insert_other (h : string) (l : list (string * string))
  (m : gmap string string) :
  Forall (fun hg => fst hg <> h) l ->
  fold_left (fun acc hg => <[fst hg := snd hg]> acc) l m !! h = m !! h.
Proof.
  intros Hall. revert m. induction Hall as [| hg l Hne _ IH]; intros m; simpl.
  - reflexivity.
  - rewrite IH. now apply lookup_insert_ne.
Qed.

Lemma combine_fst_not (h : string) (hs gs : list string) :
  ~ In h hs -> Forall (fun hg : string * string => fst hg <> h) (combine hs gs).
Proof.
  revert gs. induction hs as [| a hs IH]; intros gs Hnot; simpl.
  - constructor.
  - destruct gs as [| g gs]; [constructor |].
    constructor.
    + simpl. intros E. apply Hnot. left. exact E.
    + apply IH. intros Hin. apply Hnot. right. exact Hin.
Qed.

Lemma combine_snoc (hs gs : list string) (h g : string) :
  length gs = length hs ->
  combine (hs ++ [h]) (gs ++ [g]) = combine hs gs ++ [(h, g)].
Proof.
  revert gs. induction hs as [| a hs IH]; intros [| b gs] Hlen;
    simpl in *; try discriminate; [reflexivity |].
  f_equal. apply IH. lia.
Qed.

(** X17.  The gesture dictionary has no entry for a hand that the
    recogniser did not report, is empty when either list is missing, and
    for a hand reported more than once keeps the gesture reported last. *)
Theorem get_hand_gestures_lookup (gs hs : list string) (g h : string) :
  length gs = length hs ->
  (~ In h hs -> get_hand_gestures (Some gs) (Some hs) !! h = None)
  /\ get_hand_gestures (Some (gs ++ [g])) (Some (hs ++ [h])) !! h = Some g
  /\ get_hand_gestures None (Some hs) = ∅
  /\ get_hand_gestures (Some gs) None = ∅.
Proof.
  intros Hlen. split; [| split; [| split; reflexivity]].
  - intros Hnot. unfold get_hand_gestures.
    rewrite fold_insert_other by (now apply combine_fst_not).
    apply lookup_empty.
  - unfold get_hand_gestures.
    rewrite combine_snoc by exact Hlen.
    rewrite fold_left_app. simpl. apply lookup_insert_eq.
Qed.

Lemma get_hand_gestures_lookup_witness :
  get_hand_gestures (Some ([Open_Palm] ++ [Closed_Fist]))
    (Some (["Left"%string] ++ ["Left"%string])) !! "Left"
  = Some Closed_Fist.
Proof.
  exact (proj1 (proj2 (get_hand_gestures_lookup [Open_Palm] ["Left"%string]
                         Closed_Fist "Left" eq_refl))).
Defined.

(** *** Calibration on a tick *)

Section TickFacts.

Variable M : MathLib.

Lemma both_hands_true (cg : gmap string string) (g : string) :
  both_hands cg g = true ->
  cg !! "Left" = Some g /\ cg !! "Right" = Some g.
Proof.
  unfold both_hands. intros H. apply andb_true_iff in H as [H1 H2].
  apply bool_decide_eq_true_1 in H1, H2. auto.
Qed.

Lemma debounce_other_label (g : option string) (fresh : Q) (h : HandTrack) :
  g <> Some (trigger (hand_status h)) -> debounce g fresh h = observe g h.
Proof.
  intros Hg. unfold debounce. apply confirm_other_label.
  rewrite observe_last_seen, (proj1 (observe_status g h)). exact Hg.
Qed.

(** X9.  In [READY_TO_SET], a tick with a pose and two closed fists always
    calibrates: it raises nothing, the baseline is the average of the
    buffer with this tick's pose appended, the status is [CALIBRATED] and
    both hands are tracking, whatever they were before. *)
Theorem ready_to_set_calibrates (w : World) (t : TickInput)
  (res : PoseResult) :
  latest_pose_result t = Some res ->
  calibration_status (engine w) = READY_TO_SET ->
  both_hands (current_gestures_of t) Closed_Fist = true ->
  exists (w' : World) (b : Baseline),
    tick M w t = Some w'
    /\ average_initial_state M
         (deque_append (pose_data_buffer (engine w)) res) = Some b
    /\ initial_state (engine w') = Some b
    /\ calibration_status (engine w') = CALIBRATED
    /\ is_calibrated (engine w') = true
    /\ left_hand_status (engine w') = TRACKING
    /\ right_hand_status (engine w') = TRACKING.
Proof.
  intros Hpose St Fists.
  destruct (both_hands_true _ _ Fists) as [HL HR].
  destruct (average_initial_state M
              (deque_append (pose_data_buffer (engine w)) res))
    as [b |] eqn:Avg;
    [| apply average_initial_state_None in Avg;
       now apply deque_append_not_nil in Avg].
  unfold tick. rewrite Hpose. cbv zeta.
  unfold calibration_step at 1 2 3.
  cbn [buffer_pose calibration_status pose_data_buffer].
  rewrite St, Fists, Avg. cbn [is_calibrated initial_state].
  match goal with
  | |- context [debounce_hands ?cg ?lms ?s ?b0] =>
      set (s1 := s);
      pose proof (debounce_hands_tracks cg lms s1 b0) as [Hl Hr];
      destruct (debounce_hands cg lms s1 b0) as [s' b'] eqn:Deb
  end.
  cbn [fst snd] in Hl, Hr.
  rewrite HL, debounce_other_label in Hl by (cbn; discriminate).
  rewrite HR, debounce_other_label in Hr by (cbn; discriminate).
  pose proof (f_equal hand_status Hl) as Hls.
  pose proof (f_equal hand_head_y_offset Hl) as Hlo.
  pose proof (f_equal hand_status Hr) as Hrs.
  pose proof (f_equal hand_head_y_offset Hr) as Hro.
  rewrite (proj1 (observe_status _ _)) in Hls.
  rewrite (proj1 (observe_status _ _)) in Hrs.
  rewrite (proj2 (observe_status _ _)) in Hlo.
  rewrite (proj2 (observe_status _ _)) in Hro.
  cbn [left_track right_track hand_status hand_head_y_offset s1
         left_hand_status right_hand_status] in Hls, Hlo, Hrs, Hro.
  assert (Hs' : initial_state s' = Some b' /\ calibration_status s' = CALIBRATED
                /\ is_calibrated s' = true
                /\ b' = with_offsets b (left_hand_head_y_offset b')
                          (right_hand_head_y_offset b')).
  { unfold debounce_hands in Deb. cbv zeta in Deb.
    injection Deb as <- <-. cbn. auto. }
  destruct Hs' as (Hi & Hc & Hk & Hb').
  exists {| engine := s';
            vjoy_device := vjoy_update M (vjoy_device w) s' b'
                             (pose_world_landmarks res) |}, b.
  split; [reflexivity |]. split; [reflexivity |]. cbn [engine].
  assert (Eb : b' = b).
  { rewrite Hb', Hlo, Hro. apply with_offsets_same. }
  split; [congruence |]. auto.
Qed.

End TickFacts.

Lemma ready_to_set_calibrates_witness :
  exists (w' : World) (b : Baseline),
    tick example_math (example_world rearming_ticks) recalibration_tick
    = Some w'
    /\ initial_state (engine w') = Some b
    /\ left_hand_status (engine w') = TRACKING.
Proof.
  destruct (ready_to_set_calibrates example_math
              (example_world rearming_ticks) recalibration_tick
              (example_pose 0 0) eq_refl eq_refl eq_refl)
    as (w' & b & H1 & _ & H3 & _ & _ & H6 & _).
  exists w', b. auto.
Defined.

(** *** Flags and timer over a run *)

Section FlagFacts.

Variable M : MathLib.

Lemma tick_flags_agree (w w' : World) (t : TickInput) :
  flags_agree (engine w) -> tick M w t = Some w' -> flags_agree (engine w').
Proof.
  intros [Hnot Harm] Htick.
  destruct (latest_pose_result t) as [res |] eqn:Hpose;
    [| rewrite tick_without_pose in Htick by exact Hpose;
       injection Htick as <-; split; assumption].
  destruct (tick_calibration M w w' t res Hpose Htick) as (Est & Estart & Ecal).
  unfold flags_agree. rewrite Est, Estart, Ecal.
  unfold calibration_step.
  cbn [buffer_pose calibration_status is_calibrated arming_start_time
         pose_data_buffer].
  destruct (calibration_status (engine w)) eqn:St.
  - destruct (both_hands _ Open_Palm);
      cbn [set_calibration buffer_pose calibration_status is_calibrated
             arming_start_time]; rewrite ?St.
    + split; [discriminate | intros _; discriminate].
    + split; [auto | intros [H | H]; discriminate].
  - destruct (negb (both_hands _ Open_Palm)).
    + cbn [set_calibration buffer_pose calibration_status is_calibrated
             arming_start_time].
      destruct (is_calibrated (engine w)).
      * split; [discriminate | intros [H | H]; discriminate].
      * split; [auto | intros [H | H]; discriminate].
    + destruct (Qle_bool _ _);
        cbn [set_calibration buffer_pose calibration_status is_calibrated
               arming_start_time]; rewrite ?St;
        (split; [discriminate | intros _; apply Harm; auto]).
  - destruct (both_hands _ Closed_Fist).
    + destruct (average_initial_state M _) eqn:Avg.
      * cbn [calibration_status is_calibrated arming_start_time].
        split; [discriminate | intros [H | H]; discriminate].
      * apply average_initial_state_None in Avg.
        now apply deque_append_not_nil in Avg.
    + cbn [buffer_pose calibration_status is_calibrated arming_start_time].
      rewrite St. split; [discriminate | intros _; apply Harm; auto].
  - destruct (both_hands _ Open_Palm);
      cbn [set_calibration buffer_pose calibration_status is_calibrated
             arming_start_time]; rewrite ?St.
    + split; [discriminate | intros _; discriminate].
    + split; [discriminate | intros [H | H]; discriminate].
Qed.

(** X11.  In every state a run from the start reaches, the status
    [NOT_CALIBRATED] goes with [is_calibrated] off and no baseline, and the
    arming start time is set whenever the status is [ARMING] or
    [READY_TO_SET], so the fallback of [arming_start_time or 0] for a
    missing time is never what the half-second test reads. *)
Theorem reachable_flags_agree (d : VJoyDevice) (ticks : list TickInput)
  (w : World) :
  run M (start d) ticks = Some w ->
  (calibration_status (engine w) = NOT_CALIBRATED ->
   is_calibrated (engine w) = false /\ initial_state (engine w) = None)
  /\ (calibration_status (engine w) = ARMING
      \/ calibration_status (engine w) = READY_TO_SET ->
      exists start_time : Q, arming_start_time (engine w) = Some start_time).
Proof.
  intros Hrun.
  assert (Hflags : flags_agree (engine w)).
  { revert w Hrun. induction ticks as [| t ticks IH] using rev_ind;
      intros w Hrun.
    - injection Hrun as <-. split; [reflexivity |].
      intros [H | H]; discriminate.
    - rewrite run_snoc in Hrun.
      destruct (run M (start d) ticks) as [w1 |] eqn:Hrun1; [| discriminate].
      eapply tick_flags_agree; [apply IH; reflexivity | exact Hrun]. }
  destruct Hflags as [Hnot Harm].
  destruct (run_consistent M (start d) w ticks fresh_state_consistent Hrun)
    as [Hiff _].
  split.
  - intros St. split; [now apply Hnot |].
    destruct (initial_state (engine w)) eqn:Init; [| reflexivity].
    rewrite (Hnot St) in Hiff.
    assert (false = true) by (apply Hiff; discriminate). discriminate.
  - intros St. destruct (arming_start_time (engine w)) as [a |] eqn:A;
      [eauto | exfalso; now apply Harm].
Qed.


End FlagFacts.

Lemma reachable_flags_agree_witness :
  exists start_time : Q,
    arming_start_time (engine (example_world (firstn 1 calibrating_ticks)))
    = Some start_time.
Proof.
  assert (Hrun : run example_math (start example_device)
                   (firstn 1 calibrating_ticks)
                 = Some (example_world (firstn 1 calibrating_ticks)))
    by (vm_compute; reflexivity).
  apply (proj2 (reachable_flags_agree example_math example_device _ _ Hrun)).
  left. reflexivity.
Defined.

(** *** The values written to the axes *)

Lemma py_max_ge_r (x lo : Q) : (lo <= py_max x lo)%Q.
Proof.
  unfold py_max. destruct (Qle_bool lo x) eqn:E; [| lra].
  now apply Qle_bool_iff.
Qed.

Lemma py_max_ge_l (x lo : Q) : (x <= py_max x lo)%Q.
Proof.
  unfold py_max. destruct (Qle_bool lo x) eqn:E; [lra |].
  destruct (Qlt_le_dec x lo) as [H | H]; [lra |].
  apply Qle_bool_iff in H. congruence.
Qed.

Lemma np_clip_bounds (x lo hi : Q) :
  (lo <= hi)%Q -> (lo <= np_clip x lo hi <= hi)%Q.
Proof.
  intros H. unfold np_clip. split; [| apply py_min_le_r].
  pose proof (py_max_ge_r x lo). unfold py_min.
  destruct (Qle_bool (py_max x lo) hi); assumption.
Qed.

Lemma np_clip_above (x lo hi : Q) :
  (lo <= hi)%Q -> (hi <= x)%Q -> (np_clip x lo hi == hi)%Q.
Proof.
  intros H Hx. pose proof (np_clip_bounds x lo hi H) as [_ Hle].
  apply Qle_antisym; [exact Hle |].
  unfold np_clip, py_min. pose proof (py_max_ge_l x lo).
  destruct (Qle_bool (py_max x lo) hi); lra.
Qed.

Lemma map_to_vjoy_axis_Qeq (u v : Q) :
  (u == v)%Q -> map_to_vjoy_axis u = map_to_vjoy_axis v.
Proof.
  intros H. unfold map_to_vjoy_axis. cbv zeta.
  rewrite (py_int_Qeq _ (inject_Z VJOY_CENTER + v * inject_Z (VJOY_CENTER - 1)));
    [reflexivity | now rewrite H].
Qed.

Lemma map_to_vjoy_axis_unit (v : Q) :
  (-1 <= v <= 1)%Q -> (1 <= map_to_vjoy_axis v <= 32767)%Z.
Proof.
  intros [Hlo Hhi].
  pose proof (map_to_vjoy_axis_le (-1) v Hlo) as H1.
  pose proof (map_to_vjoy_axis_le v 1 Hhi) as H2.
  change (map_to_vjoy_axis (-1)) with 1%Z in H1.
  change (map_to_vjoy_axis 1) with 32767%Z in H2. lia.
Qed.

Lemma norm_brake_unit (travel : Q) :
  (0 <= norm_brake_0_to_1 (pull travel) <= 1)%Q.
Proof. unfold norm_brake_0_to_1. apply np_clip_bounds. lra. Qed.

Lemma norm_left_brake_unit (travel : Q) :
  (-1 <= norm_left_brake travel <= 1)%Q.
Proof.
  unfold norm_left_brake. pose proof (norm_brake_unit travel). lra.
Qed.

Lemma norm_right_brake_unit (travel : Q) :
  (-1 <= norm_right_brake travel <= 1)%Q.
Proof.
  unfold norm_right_brake. pose proof (norm_brake_unit travel). lra.
Qed.

Lemma norm_lean_unit (M : MathLib) (b : Baseline) (lms : Landmarks) :
  (-1 <= norm_lean M b lms <= 1)%Q.
Proof. unfold norm_lean. apply np_clip_bounds. lra. Qed.

(** X16.  The brake axes at their ends: a travel that is not negative (no
    pull) writes 1 on X and 32767 on Y; a travel of -0.4 or below (a pull
    of 40 cm or more) writes 32767 on X and 1 on Y. *)
Theorem brake_axes_ends (travel : Q) :
  ((0 <= travel)%Q ->
   map_to_vjoy_axis (norm_left_brake travel) = 1%Z
   /\ map_to_vjoy_axis (norm_right_brake travel) = 32767%Z)
  /\ ((travel <= - MAX_TRAVEL_METERS)%Q ->
      map_to_vjoy_axis (norm_left_brake travel) = 32767%Z
      /\ map_to_vjoy_axis (norm_right_brake travel) = 1%Z).
Proof.
  split.
  - intros H.
    assert (Hp : pull travel = 0%Q) by (apply py_max_0_nonpos; lra).
    unfold norm_left_brake, norm_right_brake. rewrite Hp. split; reflexivity.
  - intros H. unfold MAX_TRAVEL_METERS in H.
    assert (Hp : pull travel = (- travel)%Q) by (apply py_max_0_pos; lra).
    assert (Hn : (norm_brake_0_to_1 (pull travel) == 1)%Q).
    { unfold norm_brake_0_to_1. apply np_clip_above; [lra |].
      rewrite Hp. unfold MAX_TRAVEL_METERS.
      apply Qle_shift_div_l; [reflexivity | lra]. }
    split.
    + rewrite (map_to_vjoy_axis_Qeq _ 1); [reflexivity |].
      unfold norm_left_brake. rewrite Hn. ring.
    + rewrite (map_to_vjoy_axis_Qeq _ (-1)); [reflexivity |].
      unfold norm_right_brake. rewrite Hn. ring.
Qed.

Lemma brake_axes_ends_witness :
  map_to_vjoy_axis (norm_left_brake (- (1 # 2))) = 32767%Z.
Proof.
  apply (proj2 (brake_axes_ends (- (1 # 2)))). discriminate.
Defined.

(** X14.  On a tick that writes the axes, a released left hand has 1 on
    the X axis and a released right hand 32767 on the Y axis, wherever the
    hands are in the pose. *)
Theorem released_hand_is_neutral (M : MathLib) (w w' : World)
  (t : TickInput) :
  tick M w t = Some w' ->
  latest_pose_result t <> None ->
  is_calibrated (engine w') = true ->
  (left_hand_status (engine w') = RELEASED ->
   axis_x (vjoy_device w') = 1%Z)
  /\ (right_hand_status (engine w') = RELEASED ->
      axis_y (vjoy_device w') = 32767%Z).
Proof.
  intros Htick Hpose Hcal.
  destruct (latest_pose_result t) as [res |] eqn:E; [| contradiction].
  destruct (tick_with_pose M w w' t res E Htick)
    as [[Hc ->] | [_ (b & _ & ->)]]; [cbn [engine] in Hcal; congruence |].
  cbn [engine vjoy_device].
  split; intros Hrel.
  - rewrite (proj1 (vjoy_update_axes M _ _ _ _)).
    unfold left_vertical_travel. rewrite Hrel. reflexivity.
  - rewrite (proj1 (proj2 (vjoy_update_axes M _ _ _ _))).
    unfold right_vertical_travel. rewrite Hrel. reflexivity.
Qed.

Lemma released_hand_is_neutral_witness :
  axis_x (vjoy_device (example_world (opening_ticks ++ [release_tick])))
  = 1%Z.
Proof.
  assert (Htick : tick example_math (example_world opening_ticks) release_tick
                  = Some (example_world (opening_ticks ++ [release_tick])))
    by (vm_compute; reflexivity).
  apply (proj1 (released_hand_is_neutral example_math _ _ _ Htick
                  ltac:(discriminate) eq_refl)).
  reflexivity.
Defined.

Lemma tick_writes_within (M : MathLib) (w w' : World) (t : TickInput) :
  tick M w t = Some w' ->
  exists new : list (HID_USAGE * Z),
    writes (vjoy_device w') = writes (vjoy_device w) ++ new
    /\ Forall (fun av => (1 <= snd av <= 32767)%Z) new.
Proof.
  intros Htick. destruct (latest_pose_result t) as [res |] eqn:Hpose.
  - destruct (tick_with_pose M w w' t res Hpose Htick)
      as [[_ ->] | [_ (b & _ & ->)]]; cbn [vjoy_device].
    + exists []. split; [now rewrite app_nil_r | constructor].
    + eexists. split; [apply vjoy_update_writes |].
      repeat constructor; cbn [snd];
        try apply map_to_vjoy_axis_unit;
        try apply norm_left_brake_unit; try apply norm_right_brake_unit;
        try apply norm_lean_unit; vm_compute; discriminate.
  - rewrite tick_without_pose in Htick by exact Hpose.
    injection Htick as <-.
    exists []. split; [now rewrite app_nil_r | constructor].
Qed.

Lemma run_writes_within (M : MathLib) (ticks : list TickInput) :
  forall w w' : World,
    run M w ticks = Some w' ->
    exists new : list (HID_USAGE * Z),
      writes (vjoy_device w') = writes (vjoy_device w) ++ new
      /\ Forall (fun av => (1 <= snd av <= 32767)%Z) new.
Proof.
  induction ticks as [| t ticks IH]; intros w w' Hrun; simpl in Hrun.
  - injection Hrun as <-.
    exists []. split; [now rewrite app_nil_r | constructor].
  - destruct (tick M w t) as [w1 |] eqn:Ht; [| discriminate].
    destruct (tick_writes_within M w w1 t Ht) as (n1 & E1 & F1).
    destruct (IH w1 w' Hrun) as (n2 & E2 & F2).
    exists (n1 ++ n2). split; [rewrite E2, E1; now rewrite app_assoc |].
    apply Forall_app; auto.
Qed.

(** X15.  Every value the program writes to the device, in the loop and at
    shutdown, lies in 1..32767: inside the range of the device, whose top
    value 32768 is never written. *)
Theorem writes_stay_in_range (M : MathLib) (d d' : VJoyDevice)
  (ticks : list TickInput) :
  main M d ticks = Some d' ->
  writes_within 1 32767 (length (writes d)) d'.
Proof.
  unfold main. intros Hmain.
  destruct (run M (start d) ticks) as [w |] eqn:Hrun; [| discriminate].
  injection Hmain as <-.
  destruct (run_writes_within M ticks (start d) w Hrun) as (new & E & F).
  cbn [start vjoy_device] in E.
  unfold writes_within, shutdown. cbv zeta.
  rewrite !set_axis_writes, E, <- !app_assoc, drop_app_length.
  apply Forall_app. split; [exact F |].
  repeat constructor; vm_compute; discriminate.
Qed.

Lemma writes_stay_in_range_witness :
  exists d' : VJoyDevice,
    main example_math example_device released_ticks = Some d'
    /\ writes_within 1 32767 0 d'.
Proof.
  eexists. split; [vm_compute; reflexivity |].
  apply (writes_stay_in_range example_math example_device _ released_ticks).
  vm_compute. reflexivity.
Defined.

(** *** The brake as a function of the pose *)

Lemma Qle_bool_Qeq (a a' b b' : Q) :
  (a == a')%Q -> (b == b')%Q -> Qle_bool a b = Qle_bool a' b'.
Proof.
  intros Ha Hb. apply eq_true_iff_eq. rewrite !Qle_bool_iff.
  now rewrite Ha, Hb.
Qed.

Lemma py_max_Qeq (a a' b b' : Q) :
  (a == a')%Q -> (b == b')%Q -> (py_max a b == py_max a' b')%Q.
Proof.
  intros Ha Hb. unfold py_max. rewrite (Qle_bool_Qeq b b' a a' Hb Ha).
  destruct (Qle_bool b' a'); assumption.
Qed.

Lemma py_min_Qeq (a a' b b' : Q) :
  (a == a')%Q -> (b == b')%Q -> (py_min a b == py_min a' b')%Q.
Proof.
  intros Ha Hb. unfold py_min. rewrite (Qle_bool_Qeq a a' b b' Ha Hb).
  destruct (Qle_bool a' b'); assumption.
Qed.

Lemma norm_brake_Qeq (t t' : Q) :
  (t == t')%Q ->
  (norm_brake_0_to_1 (pull t) == norm_brake_0_to_1 (pull t'))%Q.
Proof.
  intros H. unfold norm_brake_0_to_1, np_clip, pull.
  apply py_min_Qeq; [| reflexivity].
  apply py_max_Qeq; [| reflexivity].
  assert (E : (py_max 0 (- t) == py_max 0 (- t'))%Q)
    by (apply py_max_Qeq; [reflexivity | now rewrite H]).
  now rewrite E.
Qed.

Lemma py_max_0_le (a b : Q) : (a <= b)%Q -> (py_max 0 a <= py_max 0 b)%Q.
Proof.
  intros H. unfold py_max.
  destruct (Qle_bool a 0) eqn:Ea; destruct (Qle_bool b 0) eqn:Eb.
  - lra.
  - destruct (Qlt_le_dec 0 b) as [L | L]; [lra |].
    apply Qle_bool_iff in L. congruence.
  - apply Qle_bool_iff in Eb.
    destruct (Qlt_le_dec 0 a) as [L | L]; [lra |].
    apply Qle_bool_iff in L. congruence.
  - exact H.
Qed.

Lemma np_clip_le (x y lo hi : Q) :
  (x <= y)%Q -> (np_clip x lo hi <= np_clip y lo hi)%Q.
Proof.
  intros H. unfold np_clip.
  assert (Hmax : (py_max x lo <= py_max y lo)%Q).
  { unfold py_max.
    destruct (Qle_bool lo x) eqn:Ex; destruct (Qle_bool lo y) eqn:Ey.
    - exact H.
    - apply Qle_bool_iff in Ex.
      destruct (Qlt_le_dec y lo) as [L | L]; [lra |].
      apply Qle_bool_iff in L. congruence.
    - now apply Qle_bool_iff.
    - lra. }
  unfold py_min.
  destruct (Qle_bool (py_max x lo) hi) eqn:Ex;
    destruct (Qle_bool (py_max y lo) hi) eqn:Ey.
  - exact Hmax.
  - now apply Qle_bool_iff.
  - apply Qle_bool_iff in Ey.
    destruct (Qlt_le_dec hi (py_max x lo)) as [L | L]; [lra |].
    apply Qle_bool_iff in L. congruence.
  - lra.
Qed.

(** X20.  The travel is measured against the head: moving the wrist and
    the nose by the same vertical amount [c] leaves the axis values of the
    hand unchanged. *)
Theorem body_shift_keeps_brake (st : HandState) (hand_y head_y ref c : Q) :
  map_to_vjoy_axis
    (norm_left_brake (vertical_travel st (hand_y + c) (head_y + c) ref))
  = map_to_vjoy_axis (norm_left_brake (vertical_travel st hand_y head_y ref))
  /\ map_to_vjoy_axis
       (norm_right_brake (vertical_travel st (hand_y + c) (head_y + c) ref))
     = map_to_vjoy_axis
         (norm_right_brake (vertical_travel st hand_y head_y ref)).
Proof.
  assert (E : (vertical_travel st (hand_y + c) (head_y + c) ref
               == vertical_travel st hand_y head_y ref)%Q).
  { unfold vertical_travel. destruct st; [ring | reflexivity]. }
  pose proof (norm_brake_Qeq _ _ E) as En.
  split; apply map_to_vjoy_axis_Qeq.
  - unfold norm_left_brake. now rewrite En.
  - unfold norm_right_brake. now rewrite En.
Qed.

(** X21.  The brakes are monotone in the pull: for a tracking hand, a
    larger hand-to-head y-offset (the hand further down) never lowers the
    value written on X and never raises the one written on Y. *)
Theorem lower_hand_brakes_more (offset1 offset2 head_y ref : Q) :
  (offset1 <= offset2)%Q ->
  (map_to_vjoy_axis
     (norm_left_brake (vertical_travel TRACKING (head_y + offset1) head_y ref))
   <= map_to_vjoy_axis
        (norm_left_brake
           (vertical_travel TRACKING (head_y + offset2) head_y ref)))%Z
  /\ (map_to_vjoy_axis
        (norm_right_brake
           (vertical_travel TRACKING (head_y + offset2) head_y ref))
      <= map_to_vjoy_axis
           (norm_right_brake
              (vertical_travel TRACKING (head_y + offset1) head_y ref)))%Z.
Proof.
  intros H.
  set (t1 := vertical_travel TRACKING (head_y + offset1) head_y ref).
  set (t2 := vertical_travel TRACKING (head_y + offset2) head_y ref).
  assert (Ht : (- t1 <= - t2)%Q).
  { unfold t1, t2, vertical_travel. lra. }
  assert (Hn : (norm_brake_0_to_1 (pull t1) <= norm_brake_0_to_1 (pull t2))%Q).
  { unfold norm_brake_0_to_1. apply np_clip_le.
    unfold pull. pose proof (py_max_0_le _ _ Ht) as Hp.
    unfold MAX_TRAVEL_METERS.
    apply Qmult_le_compat_r; [exact Hp | discriminate]. }
  split; apply map_to_vjoy_axis_le.
  - unfold norm_left_brake. lra.
  - unfold norm_right_brake. lra.
Qed.

Lemma lower_hand_brakes_more_witness :
  (map_to_vjoy_axis
     (norm_left_brake (vertical_travel TRACKING (0 + (1 # 10)) 0 0))
   <= map_to_vjoy_axis
        (norm_left_brake (vertical_travel TRACKING (0 + (1 # 5)) 0 0)))%Z.
Proof.
  apply (proj1 (lower_hand_brakes_more (1 # 10) (1 # 5) 0 0 ltac:(discriminate))).
Defined.
